(** * Structural repair of misplaced class methods

    A shallow embedding of the two repair scripts
    [fix_all_class_methods.py] (one method name, export statement required)
    and [fix_class_methods.py] (two method names, several matches), together
    with the fragment of Python's [str] and [re] they rely on.

    Texts are lists of characters.  A character is a code point below 256
    ([ascii]); the classes [\s] and [\w] are those of Python 3 [str] patterns
    restricted to that range. *)

From Stdlib Require Import String Ascii List Arith Bool ZArith Lia.
Import ListNotations.

Set Implicit Arguments.

Definition str := list ascii.

Definition nl : ascii := Ascii.ascii_of_nat 10.

(** ** Python [str] operations used by the scripts *)

Module Py.

Definition lit (s : string) : str := list_ascii_of_string s.

(** [str.isspace] on one character, also the class [\s]. *)
Definition isspace (c : ascii) : bool :=
  let n := nat_of_ascii c in
  ((9 <=? n) && (n <=? 13)) || ((28 <=? n) && (n <=? 32))
  || (n =? 133) || (n =? 160).

(** The class [\w]: alphanumerics and the underscore. *)
Definition isword (c : ascii) : bool :=
  let n := nat_of_ascii c in
  ((48 <=? n) && (n <=? 57)) || ((65 <=? n) && (n <=? 90)) || (n =? 95)
  || ((97 <=? n) && (n <=? 122))
  || (n =? 170) || (n =? 178) || (n =? 179) || (n =? 181) || (n =? 185)
  || (n =? 186) || ((188 <=? n) && (n <=? 190))
  || ((192 <=? n) && (n <=? 214)) || ((216 <=? n) && (n <=? 246))
  || (248 <=? n).

(** [s[a:b]], [s[:b]] and [s[a:]] for non-negative bounds. *)
Definition slice (s : str) (a b : nat) : str := firstn (b - a) (skipn a s).
Definition upto (s : str) (b : nat) : str := firstn b s.
Definition from (s : str) (a : nat) : str := skipn a s.

(** [s.split('\n')] *)
Fixpoint split_nl (s : str) : list str :=
  match s with
  | [] => [[]]
  | c :: s' =>
      if Ascii.eqb c nl then [] :: split_nl s'
      else match split_nl s' with
           | l :: ls => (c :: l) :: ls
           | [] => [[c]]
           end
  end.

(** ['\n'.join(ls)] *)
Fixpoint join_nl (ls : list str) : str :=
  match ls with
  | [] => []
  | [l] => l
  | l :: ls' => l ++ nl :: join_nl ls'
  end.

(** [s.count(c)] for a one-character [c]. *)
Definition count (c : ascii) (s : str) : nat :=
  length (filter (Ascii.eqb c) s).

(** [c in s] for a one-character [c]. *)
Definition has (c : ascii) (s : str) : bool := existsb (Ascii.eqb c) s.

Fixpoint starts_with (p s : str) : bool :=
  match p, s with
  | [], _ => true
  | _ :: _, [] => false
  | a :: p', b :: s' => Ascii.eqb a b && starts_with p' s'
  end.

(** [sub in s] *)
Fixpoint contains (sub s : str) : bool :=
  starts_with sub s ||
  match s with
  | [] => false
  | _ :: s' => contains sub s'
  end.

Fixpoint lstrip (s : str) : str :=
  match s with
  | c :: s' => if isspace c then lstrip s' else s
  | [] => []
  end.

(** [s.strip()] *)
Definition strip (s : str) : str := rev (lstrip (rev (lstrip s))).

(** Truth value of a string: non-empty. *)
Definition truthy (s : str) : bool :=
  match s with [] => false | _ :: _ => true end.

End Py.

(** ** The fragment of [re] used by the scripts

    Backtracking matcher in continuation-passing style.  Repetition only
    occurs on one-character classes in the scripts' patterns, so [Star],
    [Plus] and [StarLazy] take a class.  [Bol] and [Eol] are [^] and [$]
    under [re.MULTILINE]. *)

Module Re.

Inductive regex : Type :=
| Eps
| Lit (c : ascii)
| Star (p : ascii -> bool)
| Plus (p : ascii -> bool)
| StarLazy (p : ascii -> bool)
| Bol
| Eol
| Seq (r1 r2 : regex)
| Alt (r1 r2 : regex)
| Opt (r : regex)
| Grp (n : nat) (r : regex).

Fixpoint lits (s : str) : regex :=
  match s with
  | [] => Eps
  | [c] => Lit c
  | c :: s' => Seq (Lit c) (lits s')
  end.

Definition groups := list (nat * (nat * nat)).

Fixpoint group (n : nat) (g : groups) : option (nat * nat) :=
  match g with
  | [] => None
  | (m, span) :: g' => if n =? m then Some span else group n g'
  end.

Record match_obj : Type := MatchObj {
  m_start : nat;
  m_end : nat;
  m_groups : groups
}.

Section Matcher.

Variable A : Type.
Variable s : str.

Definition at_bol (i : nat) : bool :=
  match i with
  | 0 => true
  | S j => match nth_error s j with
           | Some c => Ascii.eqb c nl
           | None => false
           end
  end.

Definition at_eol (i : nat) : bool :=
  match nth_error s i with
  | Some c => Ascii.eqb c nl
  | None => i =? length s
  end.

(** Greedy repetition over the rest [l] of the text, which starts at
    offset [i]: take as many characters as possible, give back one at a
    time. *)
Fixpoint star_greedy (p : ascii -> bool) (l : str) (i : nat)
    (k : nat -> option A) : option A :=
  match l with
  | c :: l' =>
      if p c then
        match star_greedy p l' (S i) k with
        | Some a => Some a
        | None => k i
        end
      else k i
  | [] => k i
  end.

(** Lazy repetition: try the continuation first, then one more character. *)
Fixpoint star_lazy (p : ascii -> bool) (l : str) (i : nat)
    (k : nat -> option A) : option A :=
  match k i with
  | Some a => Some a
  | None =>
      match l with
      | c :: l' => if p c then star_lazy p l' (S i) k else None
      | [] => None
      end
  end.

Fixpoint rmatch (r : regex) (i : nat) (g : groups)
    (k : nat -> groups -> option A) : option A :=
  match r with
  | Eps => k i g
  | Lit c =>
      match nth_error s i with
      | Some d => if Ascii.eqb c d then k (S i) g else None
      | None => None
      end
  | Star p => star_greedy p (skipn i s) i (fun j => k j g)
  | Plus p =>
      match nth_error s i with
      | Some d =>
          if p d then star_greedy p (skipn (S i) s) (S i) (fun j => k j g)
          else None
      | None => None
      end
  | StarLazy p => star_lazy p (skipn i s) i (fun j => k j g)
  | Bol => if at_bol i then k i g else None
  | Eol => if at_eol i then k i g else None
  | Seq r1 r2 => rmatch r1 i g (fun j g' => rmatch r2 j g' k)
  | Alt r1 r2 =>
      match rmatch r1 i g k with
      | Some a => Some a
      | None => rmatch r2 i g k
      end
  | Opt r1 =>
      match rmatch r1 i g k with
      | Some a => Some a
      | None => k i g
      end
  | Grp n r1 => rmatch r1 i g (fun j g' => k j ((n, (i, j)) :: g'))
  end.

End Matcher.

Section Search.

Variable r : regex.
Variable s : str.

Definition match_at (i : nat) : option match_obj :=
  rmatch s r i [] (fun j g => Some (MatchObj i j g)).

(** Leftmost match starting at one of the offsets [i .. i + fuel]. *)
Fixpoint search_from (fuel i : nat) : option match_obj :=
  match match_at i with
  | Some m => Some m
  | None =>
      match fuel with
      | 0 => None
      | S f => search_from f (S i)
      end
  end.

(** [re.search(r, s)] *)
Definition search : option match_obj := search_from (length s) 0.

(** [re.finditer(r, s)]: successive non-overlapping matches.  The scripts'
    pattern has no empty match; after an empty match the scan would move on
    by one character. *)
Fixpoint finditer_from (fuel pos : nat) : list match_obj :=
  match fuel with
  | 0 => []
  | S f =>
      match search_from (length s - pos) pos with
      | None => []
      | Some m => m :: finditer_from f (Nat.max (m_end m) (S (m_start m)))
      end
  end.

Definition finditer : list match_obj := finditer_from (S (length s)) 0.

End Search.

End Re.

Import Re.

Notation "a ;; b" := (Seq a b) (at level 61, right associativity).

Definition any (_ : ascii) : bool := true.

(** ** What one call of [fix_file] does to the outside world

    The scripts read the file, print progress lines, possibly write the file
    back and return a boolean.  [written] is the text passed to [f.write],
    when the call gets that far. *)

Inductive message : Type :=
| Checking | Fixing | NoIssuesFound | FoundIssue
| CouldNotFindClassEnd | CouldNotFindMethodEnd
| FixedMethod | FixedFile.

Record outcome : Type := Outcome {
  printed : list message;
  written : option str;
  returned : bool
}.

(** The text of the file once the call has returned. *)
Definition file_after (content : str) (o : outcome) : str :=
  match written o with
  | Some c => c
  | None => content
  end.

(** The common list comprehension
    [['    ' + line if line.strip() else line for line in method_lines]]. *)
Definition indent_line (line : str) : str :=
  if Py.truthy (Py.strip line) then Py.lit "    " ++ line else line.

Definition braces (line : str) : Z :=
  (Z.of_nat (Py.count "{" line) - Z.of_nat (Py.count "}" line))%Z.

(** Both detectors start with the line of a closing brace: start of a
    line, white space (group 1), the brace, white space, a line break. *)
Definition brace_line_text : string := "^(\s*)\}\s*\n".

Definition brace_line : regex :=
  Bol ;; Grp 1 (Star Py.isspace) ;; Lit "}" ;; Star Py.isspace ;; Lit nl.

(** ** [fix_all_class_methods.py]: the single-method variant *)

Module fix_all_class_methods.

Definition name : str := Py.lit "getSelfAwarenessStatus()".

(** The detector's pattern, in five pieces: the line of the closing brace
    (shared with the other script), the start of the export statement, its
    end with the blank line, the optional doc comment (group 2), and the
    method's name, parameter list and opening brace. *)
Definition pattern_text : string :=
  "^(\s*)\}\s*\n\s*export\s+default\s+\w+;\s*\n\s*\n\s*(\/\*\*[\s\S]*?\*\/\s*\n\s*)?getSelfAwarenessStatus\(\)\s*\{".

Definition export_default : regex :=
  Star Py.isspace ;; lits (Py.lit "export") ;; Plus Py.isspace ;;
  lits (Py.lit "default").

Definition export_rest : regex :=
  Plus Py.isspace ;; Plus Py.isword ;; Lit ";" ;; Star Py.isspace ;; Lit nl ;;
  Star Py.isspace ;; Lit nl ;; Star Py.isspace.

Definition doc_comment : regex :=
  Opt (Grp 2 (lits (Py.lit "/**") ;; StarLazy any ;; lits (Py.lit "*/") ;;
              Star Py.isspace ;; Lit nl ;; Star Py.isspace)).

Definition method_head : regex :=
  lits name ;; Star Py.isspace ;; Lit "{".

Definition pattern : regex :=
  brace_line ;; export_default ;; export_rest ;; doc_comment ;; method_head.

(** The pattern of the second search, for the class end: the first two
    pieces of the detector's pattern. *)
Definition class_end_pattern_text : string :=
  "^(\s*)\}\s*\n\s*export\s+default".

Definition class_end_pattern : regex := brace_line ;; export_default.

(** The pattern of the search for a following export statement (no flags). *)
Definition export_pattern_text : string :=
  "\n\s*export\s+default\s+\w+;\s*\n".

Definition export_pattern : regex :=
  Lit nl ;; Star Py.isspace ;; lits (Py.lit "export") ;; Plus Py.isspace ;;
  lits (Py.lit "default") ;; Plus Py.isspace ;; Plus Py.isword ;; Lit ";" ;;
  Star Py.isspace ;; Lit nl.

(** The first loop over [lines_after_method]; the result is
    [method_end_line], which stays [0] when the loop never breaks. *)
Fixpoint find_method_end (lines : list str) (i : nat) (brace_count : Z)
    : nat :=
  match lines with
  | [] => 0
  | line :: rest =>
      if Py.contains name line then find_method_end rest (S i) 1%Z
      else if (0 <? brace_count)%Z then
        let brace_count' := (brace_count + braces line)%Z in
        if (brace_count' =? 0)%Z then i
        else find_method_end rest (S i) brace_count'
      else find_method_end rest (S i) brace_count
  end.

(** The second loop: the lines from the first one that holds the method
    name up to line [method_end_line]. *)
Fixpoint collect_method_lines (lines : list str) (i : nat)
    (found_method_start : bool) (method_end_line : nat) : list str :=
  match lines with
  | [] => []
  | line :: rest =>
      let found := found_method_start || Py.contains name line in
      if found then
        line :: (if i =? method_end_line then []
                 else collect_method_lines rest (S i) found method_end_line)
      else collect_method_lines rest (S i) found method_end_line
  end.

Definition fix_file (content : str) : outcome :=
  match Re.search pattern content with
  | None => Outcome [Checking; NoIssuesFound] None false
  | Some mt =>
      let method_start := m_start mt in
      match Re.search class_end_pattern content with
      | None => Outcome [Checking; FoundIssue; CouldNotFindClassEnd] None false
      | Some class_end_match =>
          let class_end_pos := m_start class_end_match in
          let lines_after_method := Py.split_nl (Py.from content method_start) in
          let method_end_line := find_method_end lines_after_method 0 0%Z in
          if method_end_line =? 0 then
            Outcome [Checking; FoundIssue; CouldNotFindMethodEnd] None false
          else
            let method_lines :=
              collect_method_lines lines_after_method 0 false method_end_line in
            let method_full_start := method_start in
            let method_full_end :=
              method_start
              + length (Py.join_nl (firstn (method_end_line + 1) lines_after_method)) in
            let method_full_end :=
              match Re.search export_pattern (Py.from content method_full_end) with
              | Some export_match => method_full_end + m_end export_match
              | None => method_full_end
              end in
            let method_indented := Py.join_nl (map indent_line method_lines) in
            let new_content :=
              Py.upto content class_end_pos
              ++ [nl] ++ method_indented ++ [nl]
              ++ Py.slice content class_end_pos method_full_start
              ++ Py.from content method_full_end in
            Outcome [Checking; FoundIssue; FixedFile] (Some new_content) true
      end
  end.

End fix_all_class_methods.

(** ** [fix_class_methods.py]: the multi-method variant *)

Module fix_class_methods.

(** The detector's pattern: the line of the closing brace, an empty line,
    white space (group 2), one of the two names (group 3), the parameter
    list and the opening brace. *)
Definition pattern_text : string :=
  "^(\s*)\}\s*\n\n(\s+)(getSelfAwarenessStatus|healthCheck)\(\)\s*\{".

Definition method_head : regex :=
  Grp 3 (Alt (lits (Py.lit "getSelfAwarenessStatus"))
             (lits (Py.lit "healthCheck"))) ;;
  Lit "(" ;; Lit ")" ;; Star Py.isspace ;; Lit "{".

Definition pattern : regex :=
  brace_line ;; Lit nl ;; Grp 2 (Plus Py.isspace) ;; method_head.

(** The pattern searched in the reversed text before the match. *)
Definition class_end_pattern_text : string := "^(\s*)\}(\s*)$".

Definition class_end_pattern : regex :=
  Bol ;; Grp 1 (Star Py.isspace) ;; Lit "}" ;; Grp 2 (Star Py.isspace) ;; Eol.

(** [match.start(2)].  Group 2 is not optional in [pattern], so it takes
    part in every match; Python's answer [-1] for an absent group is never
    produced. *)
Definition start2 (mt : match_obj) : nat :=
  match group 2 (m_groups mt) with
  | Some (a, _) => a
  | None => 0
  end.

(** The loop over [lines]; the result is [method_end_line], which stays [0]
    when the loop never breaks. *)
Fixpoint find_method_end (lines : list str) (i : nat) (brace_count : Z)
    : nat :=
  match lines with
  | [] => 0
  | line :: rest =>
      let brace_count' := (brace_count + braces line)%Z in
      if (brace_count' =? 0)%Z && Py.has "}" line then i
      else find_method_end rest (S i) brace_count'
  end.

(** The body of [for match in reversed(matches)]: the new value of
    [content] and what is printed. *)
Definition process_match (content : str) (mt : match_obj)
    : str * list message :=
  let class_end_pos := m_start mt in
  let method_start_pos := start2 mt in
  let lines := Py.split_nl (Py.from content method_start_pos) in
  let method_end_line := find_method_end lines 0 0%Z in
  if method_end_line =? 0 then (content, [CouldNotFindMethodEnd])
  else
    let method_lines := firstn (method_end_line + 1) lines in
    let method_full_end := method_start_pos + length (Py.join_nl method_lines) in
    let before_class_end := Py.upto content class_end_pos in
    match Re.search class_end_pattern (rev before_class_end) with
    | Some class_end_match =>
        let insertion_point := class_end_pos - m_start class_end_match in
        let method_indented := Py.join_nl (map indent_line method_lines) in
        let new_content :=
          Py.upto content insertion_point
          ++ [nl] ++ method_indented ++ [nl]
          ++ Py.slice content insertion_point method_start_pos
          ++ Py.from content method_full_end in
        (new_content, [FixedMethod])
    | None => (content, [CouldNotFindClassEnd])
    end.

(** The whole loop, over the matches in the order they are visited. *)
Fixpoint process_matches (content : str) (visited : list match_obj)
    : str * list message :=
  match visited with
  | [] => (content, [])
  | mt :: rest =>
      let (content', msgs) := process_match content mt in
      let (content'', msgs') := process_matches content' rest in
      (content'', msgs ++ msgs')
  end.

Definition fix_file (content : str) : outcome :=
  let matches := Re.finditer pattern content in
  match matches with
  | [] => Outcome [Fixing; NoIssuesFound] None false
  | _ :: _ =>
      let (content', msgs) := process_matches content (rev matches) in
      Outcome (Fixing :: msgs) (Some content') true
  end.

End fix_class_methods.

(** ** The specification's description of the method-end scan

    Written after the specification's words, to be compared with the two
    [find_method_end] loops: the count is seeded at 1 at the declaration
    line [seed], every later line adds its opening braces and subtracts its
    closing ones, and the end line is the first later line at which the
    count is back at zero. *)

Fixpoint spec_first_balanced (lines : list str) (i : nat) (count : Z)
    : option nat :=
  match lines with
  | [] => None
  | line :: rest =>
      let count' := (count + braces line)%Z in
      if (count' =? 0)%Z then Some i
      else spec_first_balanced rest (S i) count'
  end.

Definition spec_method_end_line (lines : list str) (seed : nat) : option nat :=
  spec_first_balanced (skipn (S seed) lines) (S seed) 1%Z.

(** Sum of the per-line brace counts of a block of lines. *)
Fixpoint balance (lines : list str) : Z :=
  match lines with
  | [] => 0%Z
  | line :: rest => (braces line + balance rest)%Z
  end.

(** ** Texts used in the scenarios *)

Definition text (lines : list string) : str := Py.join_nl (map Py.lit lines).

(** Scenario A of the specification. *)
Definition scenario_A : str :=
  text [ "class Foo {";
         "  bar(){}";
         "}";
         "export default Foo;";
         "";
         "getSelfAwarenessStatus() {";
         "  return 1;";
         "}";
         "" ]%string.

(** Scenario D: two misplaced methods after one class. *)
Definition scenario_D : str :=
  text [ "class Foo {";
         "  bar() {";
         "  }";
         "}";
         "";
         "  healthCheck() {";
         "    return 1;";
         "  }";
         "";
         "  getSelfAwarenessStatus() {";
         "    return 2;";
         "  }";
         "" ]%string.

(** Scenario D with the class of Scenario A. *)
Definition scenario_D_compact : str :=
  text [ "class Foo {";
         "  bar(){}";
         "}";
         "";
         "  healthCheck() {";
         "    return 1;";
         "  }";
         "";
         "  getSelfAwarenessStatus() {";
         "    return 2;";
         "  }";
         "" ]%string.

(** Two misplaced methods, the second never closed. *)
Definition second_method_unclosed : str :=
  text [ "class Foo {";
         "  bar() {";
         "  }";
         "}";
         "";
         "  healthCheck() {";
         "    return 1;";
         "  }";
         "";
         "  getSelfAwarenessStatus() {";
         "    return 2;";
         "" ]%string.

(** One misplaced method after a class with two methods. *)
Definition one_misplaced_method : str :=
  text [ "class Foo {";
         "  a() {";
         "  }";
         "  bar() {";
         "  }";
         "}";
         "";
         "  healthCheck() {";
         "    return 1;";
         "  }";
         "" ]%string.

(** A one-line method followed by a stray closing brace. *)
Definition one_line_then_brace : str :=
  text [ "class Foo {";
         "  bar() {";
         "  }";
         "}";
         "";
         "  healthCheck() { return 1; }";
         "}";
         "" ]%string.

(** A method whose declaration line opens two braces. *)
Definition nested_on_declaration_line : str :=
  text [ "class Foo {";
         "  bar() {";
         "  }";
         "}";
         "";
         "  healthCheck() { if (this.ok) {";
         "    return 1; }";
         "  }";
         "" ]%string.

(** A one-line method after a line that holds one space. *)
Definition one_line_after_blank : str :=
  text [ "class A {";
         "  b() {";
         "  }";
         "}";
         "";
         " ";
         "  healthCheck() {}";
         "" ]%string.

(** The single-method variant's one-line method, with and without a stray
    closing brace after it. *)
Definition one_line_export_brace : str :=
  text [ "class Foo {";
         "  bar(){}";
         "}";
         "export default Foo;";
         "";
         "getSelfAwarenessStatus() { return 1; }";
         "}";
         "" ]%string.

Definition one_line_export : str :=
  text [ "class Foo {";
         "  bar(){}";
         "}";
         "export default Foo;";
         "";
         "getSelfAwarenessStatus() { return 1; }";
         "" ]%string.

(** Scenario C: the count of the method's braces never returns to zero. *)
Definition scenario_C : str :=
  text [ "class Foo {";
         "  bar(){}";
         "}";
         "export default Foo;";
         "";
         "getSelfAwarenessStatus() {";
         "  if (this.ready) {";
         "  return 1;";
         "}";
         "" ]%string.

Definition scenario_C_multi : str :=
  text [ "class Foo {";
         "  bar() {";
         "  }";
         "}";
         "";
         "  healthCheck() {";
         "    if (this.ready) {";
         "    return 1;";
         "  }";
         "" ]%string.


(** ** Files, and the two scripts run on them

    [fix_file(filepath)] and [main()] of both scripts, over a store of files.
    What a path holds is a text that can or cannot be written, or something
    that [open] or [read] raises on (a directory, a file without read
    permission, bytes that are not UTF-8).  A path the store does not know
    does not exist.  A write that fails leaves the store as it is. *)

Inductive entry : Type :=
| Text (content : str) (writable : bool)
| Unreadable.

Definition files := str -> option entry.

Definition str_eqb (a b : str) : bool :=
  if list_eq_dec ascii_dec a b then true else false.

(** [os.path.exists(p)] *)
Definition path_exists (fs : files) (p : str) : bool :=
  match fs p with
  | Some _ => true
  | None => false
  end.

(** [open(p, 'r', encoding='utf-8')] followed by [f.read()]; [None] when
    one of them raises. *)
Definition read_text (fs : files) (p : str) : option str :=
  match fs p with
  | Some (Text content _) => Some content
  | _ => None
  end.

(** Whether [open(p, 'w', encoding='utf-8')] and [f.write] go through. *)
Definition can_write (fs : files) (p : str) : bool :=
  match fs p with
  | Some (Text _ writable) => writable
  | _ => false
  end.

Definition write_text (fs : files) (p : str) (content : str) : files :=
  fun q => if str_eqb q p then Some (Text content true) else fs q.

(** The lines the scripts print. *)
Inductive line : Type :=
| Said (filepath : str) (m : message)
| ErrorReading (filepath : str)
| ErrorWriting (filepath : str)
| FileNotFound (filepath : str)
| FoundFiles (n : nat)
| FixedFiles (n : nat).

(** [s.endswith(suffix)] *)
Definition endswith (suffix s : str) : bool :=
  Py.starts_with (rev suffix) (rev s).

(** [os.path.join(a, b)] of [posixpath]. *)
Definition path_join (a b : str) : str :=
  if Py.starts_with (Py.lit "/") b then b
  else if negb (Py.truthy a) || endswith (Py.lit "/") a then a ++ b
  else a ++ Py.lit "/" ++ b.

(** *** [fix_all_class_methods.py] on files *)

Module fix_all_class_methods_py.

(** [fix_file(filepath)]: both [try] blocks catch what [open], [read] and
    [write] raise, print an error line and return [False]. *)
Definition fix_file (fs : files) (filepath : str) : files * list line * bool :=
  match read_text fs filepath with
  | None => (fs, [Said filepath Checking; ErrorReading filepath], false)
  | Some content =>
      let o := fix_all_class_methods.fix_file content in
      match written o with
      | None => (fs, map (Said filepath) (printed o), returned o)
      | Some new_content =>
          if can_write fs filepath then
            (write_text fs filepath new_content,
             map (Said filepath) (printed o), true)
          else
            (fs,
             map (Said filepath) (removelast (printed o))
             ++ [ErrorWriting filepath],
             false)
      end
  end.

Definition consciousness_dir : str :=
  Py.lit "FlappyJournal/server/consciousness".

(** The loop [for filepath in js_files]. *)
Fixpoint fix_each (fs : files) (paths : list str) (fixed_count : nat)
    : files * list line * nat :=
  match paths with
  | [] => (fs, [], fixed_count)
  | filepath :: rest =>
      let '(fs1, out, fixed) := fix_file fs filepath in
      let '(fs2, out', n) :=
        fix_each fs1 rest (if fixed then fixed_count + 1 else fixed_count) in
      (fs2, out ++ out', n)
  end.

Section Walk.

(** What [os.walk] yields for a directory: triples of a directory path, the
    names of its subdirectories and the names of its files. *)
Variable os_walk : str -> list (str * list str * list str).

Definition js_files : list str :=
  flat_map
    (fun triple =>
       let '(root, dirs, files) := triple in
       map (path_join root) (filter (endswith (Py.lit ".js")) files))
    (os_walk consciousness_dir).

Definition main (fs : files) : files * list line :=
  let '(fs', out, fixed_count) := fix_each fs js_files 0 in
  (fs', FoundFiles (length js_files) :: out ++ [FixedFiles fixed_count]).

End Walk.

End fix_all_class_methods_py.

(** *** [fix_class_methods.py] on files *)

Module fix_class_methods_py.

(** [fix_file(filepath)]: nothing catches what [open], [read] and [write]
    raise; [None] is the script ending with that exception. *)
Definition fix_file (fs : files) (filepath : str)
    : option (files * list line * bool) :=
  match read_text fs filepath with
  | None => None
  | Some content =>
      let o := fix_class_methods.fix_file content in
      match written o with
      | None => Some (fs, map (Said filepath) (printed o), returned o)
      | Some new_content =>
          if can_write fs filepath then
            Some (write_text fs filepath new_content,
                  map (Said filepath) (printed o), returned o)
          else None
      end
  end.

Definition files_to_fix : list str :=
  map Py.lit
    [ "FlappyJournal/server/consciousness/enhanced-code-analyzer.js";
      "FlappyJournal/server/consciousness/services/CodeGenerationService.js";
      "FlappyJournal/server/consciousness/services/ConsciousnessIntegration.js";
      "FlappyJournal/server/consciousness/modules/PatternRecognizer.js";
      "FlappyJournal/server/consciousness/modules/ConsciousnessPersistence.js";
      "FlappyJournal/server/consciousness/modules/SelfCodingModule.js";
      "FlappyJournal/server/consciousness/modules/ModuleOrchestrator.js";
      "FlappyJournal/server/consciousness/modules/PredictiveAnalyzer.js";
      "FlappyJournal/server/consciousness/modules/NLPProcessor.js";
      "FlappyJournal/server/consciousness/modules/SelfHealingModule.js"
    ]%string.

(** The loop [for filepath in files_to_fix]. *)
Fixpoint fix_each (fs : files) (paths : list str) (fixed_count : nat)
    : option (files * list line * nat) :=
  match paths with
  | [] => Some (fs, [], fixed_count)
  | filepath :: rest =>
      if path_exists fs filepath then
        match fix_file fs filepath with
        | None => None
        | Some (fs1, out, fixed) =>
            match fix_each fs1 rest
                    (if fixed then fixed_count + 1 else fixed_count) with
            | None => None
            | Some (fs2, out', n) => Some (fs2, out ++ out', n)
            end
        end
      else
        match fix_each fs rest fixed_count with
        | None => None
        | Some (fs2, out', n) => Some (fs2, FileNotFound filepath :: out', n)
        end
  end.

Definition main (fs : files) : option (files * list line) :=
  match fix_each fs files_to_fix 0 with
  | None => None
  | Some (fs', out, fixed_count) => Some (fs', out ++ [FixedFiles fixed_count])
  end.

End fix_class_methods_py.


(** What [os.walk] could yield for a directory with two files and one
    subdirectory with one file. *)
Definition small_walk (top : str) : list (str * list str * list str) :=
  [ (top, [Py.lit "modules"], [Py.lit "index.js"; Py.lit "notes.txt"]);
    (path_join top (Py.lit "modules"), [], [Py.lit "Foo.js"]) ].

Definition small_store : files :=
  fun p =>
    if str_eqb p (Py.lit "FlappyJournal/server/consciousness/index.js")
    then Some (Text scenario_A true)
    else if str_eqb p (Py.lit "FlappyJournal/server/consciousness/notes.txt")
    then Some (Text scenario_A true)
    else if str_eqb p (Py.lit "FlappyJournal/server/consciousness/modules/Foo.js")
    then Some (Text scenario_C false)
    else None.


(** The number of "Fixed" lines among the lines printed. *)
Definition fixed_lines (out : list line) : nat :=
  length
    (filter (fun l => match l with Said _ FixedFile => true | _ => false end)
       out).

(** Whether a path holds a text in which the multi-method detector
    matches. *)
Definition detected (fs : files) (p : str) : bool :=
  match read_text fs p with
  | Some content =>
      match Re.search fix_class_methods.pattern content with
      | Some _ => true
      | None => false
      end
  | None => false
  end.


(** ** What a successful match says about the text

    [lang r w]: the word [w] has the shape of [r], anchors and group
    numbers left aside.  [min_len r] is a lower bound on the length of such
    a word and [group_ids r] lists the groups [r] can set. *)

Fixpoint lang (r : regex) (w : str) : Prop :=
  match r with
  | Eps | Bol | Eol => w = []
  | Lit c => w = [c]
  | Star p | StarLazy p => Forall (fun c => p c = true) w
  | Plus p => w <> [] /\ Forall (fun c => p c = true) w
  | Seq r1 r2 => exists u v, w = u ++ v /\ lang r1 u /\ lang r2 v
  | Alt r1 r2 => lang r1 w \/ lang r2 w
  | Opt r1 => w = [] \/ lang r1 w
  | Grp _ r1 => lang r1 w
  end.

Fixpoint min_len (r : regex) : nat :=
  match r with
  | Eps | Bol | Eol | Star _ | StarLazy _ | Opt _ => 0
  | Lit _ | Plus _ => 1
  | Seq r1 r2 => min_len r1 + min_len r2
  | Alt r1 r2 => Nat.min (min_len r1) (min_len r2)
  | Grp _ r1 => min_len r1
  end.

Fixpoint group_ids (r : regex) : list nat :=
  match r with
  | Eps | Bol | Eol | Lit _ | Star _ | StarLazy _ | Plus _ => []
  | Seq r1 r2 | Alt r1 r2 => group_ids r1 ++ group_ids r2
  | Opt r1 => group_ids r1
  | Grp n r1 => n :: group_ids r1
  end.

(** * Facts about the text operations *)

Unset Implicit Arguments.

Module PyFacts.

Lemma skipn_nth_error (s : str) (i : nat) (c : ascii) :
  nth_error s i = Some c -> skipn i s = c :: skipn (S i) s.
Proof.
  revert i; induction s as [|d s IH]; intros [|i] H; simpl in *; try discriminate.
  - now inversion H.
  - now apply IH.
Qed.

Lemma slice_nil (s : str) (i : nat) : Py.slice s i i = [].
Proof. unfold Py.slice. now rewrite Nat.sub_diag. Qed.

Lemma slice_one (s : str) (i : nat) (c : ascii) :
  nth_error s i = Some c -> Py.slice s i (S i) = [c].
Proof.
  intros H. unfold Py.slice. rewrite (skipn_nth_error _ _ _ H).
  replace (S i - i) with 1 by lia. reflexivity.
Qed.

Lemma skipn_skipn_add (s : str) (a b : nat) :
  skipn a (skipn b s) = skipn (a + b) s.
Proof.
  revert s; induction b as [|b IH]; intros s.
  - now rewrite Nat.add_0_r.
  - destruct s as [|c s]; simpl.
    + now rewrite !skipn_nil.
    + rewrite Nat.add_succ_r. simpl. apply IH.
Qed.

Lemma firstn_add (l : str) (a b : nat) :
  firstn (a + b) l = firstn a l ++ firstn b (skipn a l).
Proof.
  revert l; induction a as [|a IH]; intros l; simpl.
  - reflexivity.
  - destruct l as [|c l]; simpl.
    + now rewrite firstn_nil.
    + now rewrite IH.
Qed.

Lemma slice_app (s : str) (i j k : nat) :
  i <= j -> j <= k -> Py.slice s i k = Py.slice s i j ++ Py.slice s j k.
Proof.
  intros Hij Hjk. unfold Py.slice.
  replace (k - i) with ((j - i) + (k - j)) by lia.
  rewrite firstn_add, skipn_skipn_add.
  now replace (j - i + i) with j by lia.
Qed.

Lemma slice_firstn_skipn (s : str) (i n : nat) :
  Py.slice s i (i + n) = firstn n (skipn i s).
Proof. unfold Py.slice. now replace (i + n - i) with n by lia. Qed.

(** *** Lines *)

Lemma split_nl_not_nil (s : str) : Py.split_nl s <> [].
Proof.
  destruct s as [|c s]; simpl; [discriminate|].
  destruct (Ascii.eqb c nl); [discriminate|].
  destruct (Py.split_nl s); discriminate.
Qed.

Lemma split_nl_cons (c : ascii) (s : str) :
  Ascii.eqb c nl = false ->
  exists l ls, Py.split_nl s = l :: ls /\ Py.split_nl (c :: s) = (c :: l) :: ls.
Proof.
  intros Hc. simpl. rewrite Hc.
  destruct (Py.split_nl s) as [|l ls] eqn:E.
  - now apply split_nl_not_nil in E.
  - now exists l, ls.
Qed.

(** [split] undoes [join], and the other way round on lines without line
    breaks. *)
Lemma join_split (s : str) : Py.join_nl (Py.split_nl s) = s.
Proof.
  induction s as [|c s IH]; [reflexivity|].
  destruct (Ascii.eqb_spec c nl) as [->|Hc].
  - simpl. destruct (Py.split_nl s) as [|l ls] eqn:E.
    + now apply split_nl_not_nil in E.
    + simpl in *. now rewrite IH.
  - destruct (@split_nl_cons c s) as (l & ls & E1 & E2).
    { now apply Ascii.eqb_neq. }
    rewrite E2. rewrite E1 in IH. destruct ls; simpl in *; now rewrite IH.
Qed.

Lemma join_nl_cons (l : str) (ls : list str) :
  ls <> [] -> Py.join_nl (l :: ls) = l ++ nl :: Py.join_nl ls.
Proof. destruct ls; [congruence|reflexivity]. Qed.

Lemma join_nl_app (a b : list str) :
  a <> [] -> b <> [] ->
  Py.join_nl (a ++ b) = Py.join_nl a ++ nl :: Py.join_nl b.
Proof.
  induction a as [|l a IH]; intros Ha Hb; [congruence|].
  destruct a as [|l' a].
  - simpl app. now rewrite join_nl_cons.
  - change ((l :: l' :: a) ++ b) with (l :: ((l' :: a) ++ b)).
    rewrite join_nl_cons by discriminate.
    rewrite IH by (auto; discriminate).
    rewrite (@join_nl_cons l (l' :: a)) by discriminate.
    now rewrite <- app_assoc.
Qed.

Lemma split_nl_app (u v : str) :
  Py.split_nl (u ++ nl :: v) = Py.split_nl u ++ Py.split_nl v.
Proof.
  induction u as [|c u IH].
  - reflexivity.
  - destruct (Ascii.eqb_spec c nl) as [->|Hc].
    + simpl. now rewrite <- IH.
    + apply Ascii.eqb_neq in Hc.
      destruct (@split_nl_cons c u Hc) as (l & ls & E1 & E2).
      rewrite E2. simpl app at 1. simpl Py.split_nl at 1. rewrite Hc.
      fold (Py.split_nl (u ++ nl :: v)). rewrite IH, E1. reflexivity.
Qed.

Lemma split_nl_chars (u : str) :
  forall l c, In l (Py.split_nl u) -> In c l -> In c u.
Proof.
  induction u as [|d u IH]; intros l c; simpl.
  - intros [<-|[]] [].
  - destruct (Ascii.eqb d nl).
    + intros [<-|Hin] Hc; [destruct Hc|]. right. eauto.
    + destruct (Py.split_nl u) as [|l0 ls] eqn:E.
      * intros [<-|[]] [->|[]]. now left.
      * intros [<-|Hin] Hc.
        -- destruct Hc as [->|Hc]; [now left|].
           right. apply (IH l0); simpl; auto.
        -- right. apply (IH l); simpl; auto.
Qed.

(** The text of the first [k + 1] lines is a prefix of the text, and what
    follows it is a line break or the end of the text. *)
Lemma join_firstn_split (s : str) (k : nat) :
  k < length (Py.split_nl s) ->
  let m := Py.join_nl (firstn (k + 1) (Py.split_nl s)) in
  firstn (length m) s = m /\
  (S k < length (Py.split_nl s) ->
     skipn (length m) s = nl :: Py.join_nl (skipn (k + 1) (Py.split_nl s))) /\
  (S k = length (Py.split_nl s) -> skipn (length m) s = []).
Proof.
  intros Hk m. subst m.
  pose proof (join_split s) as Hs.
  remember (Py.split_nl s) as ls eqn:Els. clear Els. subst s.
  assert (Hls : firstn (k + 1) ls ++ skipn (k + 1) ls = ls)
    by apply firstn_skipn.
  assert (Hne : firstn (k + 1) ls <> []).
  { destruct ls; simpl in *; [lia|].
    replace (k + 1) with (S k) by lia. discriminate. }
  assert (Hlen : length (skipn (k + 1) ls) = length ls - (k + 1))
    by apply length_skipn.
  destruct (skipn (k + 1) ls) as [|x xs] eqn:Esk.
  - rewrite app_nil_r in Hls. rewrite Hls.
    rewrite firstn_all, skipn_all. simpl in Hlen.
    repeat split; auto. intros; lia.
  - assert (Hj : Py.join_nl ls
                 = Py.join_nl (firstn (k + 1) ls) ++ nl :: Py.join_nl (x :: xs)).
    { rewrite <- Hls at 1. apply join_nl_app; auto. discriminate. }
    rewrite Hj.
    rewrite firstn_app, Nat.sub_diag, firstn_all, skipn_app, Nat.sub_diag,
      skipn_all. simpl firstn. simpl skipn. rewrite app_nil_r.
    repeat split; auto.
    intros Heq. simpl in Hlen. lia.
Qed.

(** *** Substrings and counts *)

Lemma starts_with_app (p s : str) : Py.starts_with p (p ++ s) = true.
Proof.
  induction p as [|c p IH]; [now destruct s|].
  simpl. now rewrite Ascii.eqb_refl, IH.
Qed.

Lemma contains_head (c : ascii) (sub s : str) :
  Py.contains (c :: sub) s = true -> In c s.
Proof.
  induction s as [|d s IH]; simpl.
  - discriminate.
  - destruct (Ascii.eqb_spec c d) as [->|]; [now left|].
    simpl. intros H. right. now apply IH.
Qed.

Lemma contains_app (sub x y : str) : Py.contains sub (x ++ sub ++ y) = true.
Proof.
  induction x as [|c x IH].
  - simpl app. destruct (sub ++ y) eqn:E; simpl;
      rewrite <- E, starts_with_app; reflexivity.
  - simpl. rewrite IH. apply orb_true_r.
Qed.

Lemma count_app (c : ascii) (a b : str) :
  Py.count c (a ++ b) = Py.count c a + Py.count c b.
Proof. unfold Py.count. now rewrite filter_app, length_app. Qed.

Lemma braces_app (a b : str) : braces (a ++ b) = (braces a + braces b)%Z.
Proof. unfold braces. rewrite !count_app. lia. Qed.

Lemma braces_nl : braces [nl] = 0%Z.
Proof. reflexivity. Qed.

Lemma braces_cons_nl (a : str) : braces (nl :: a) = braces a.
Proof. change (nl :: a) with ([nl] ++ a). now rewrite braces_app, braces_nl. Qed.

(** The braces of a text are those of its lines. *)
Lemma braces_join (ls : list str) : braces (Py.join_nl ls) = balance ls.
Proof.
  induction ls as [|l ls IH]; [reflexivity|].
  destruct ls as [|l' ls].
  - simpl. lia.
  - rewrite join_nl_cons by discriminate.
    rewrite braces_app, braces_cons_nl, IH. reflexivity.
Qed.

Lemma balance_app (a b : list str) :
  balance (a ++ b) = (balance a + balance b)%Z.
Proof. induction a as [|l a IH]; simpl; [reflexivity|]. rewrite IH. lia. Qed.

(** *** Where a substring without line breaks lies *)

Lemma split_nl_prefix (sub y : str) :
  ~ In nl sub ->
  exists rest ls, Py.split_nl (sub ++ y) = (sub ++ rest) :: ls.
Proof.
  induction sub as [|c sub IH]; intros Hnl.
  - simpl app. destruct (Py.split_nl y) as [|l ls] eqn:E.
    + now apply split_nl_not_nil in E.
    + now exists l, ls.
  - destruct IH as (rest & ls & E); [intros H; apply Hnl; now right|].
    assert (Hc : Ascii.eqb c nl = false).
    { apply Ascii.eqb_neq. intros ->. apply Hnl. now left. }
    destruct (@split_nl_cons c (sub ++ y) Hc) as (l & ls' & E1 & E2).
    rewrite E in E1. inversion E1; subst.
    exists rest, ls'. exact E2.
Qed.

Lemma contains_cons (sub s : str) (c : ascii) :
  Py.contains sub s = true -> Py.contains sub (c :: s) = true.
Proof. intros H. simpl. rewrite H. apply orb_true_r. Qed.

(** Some line of the text holds [sub]. *)
Lemma some_line_contains (sub x y : str) :
  ~ In nl sub ->
  existsb (Py.contains sub) (Py.split_nl (x ++ sub ++ y)) = true.
Proof.
  intros Hnl. induction x as [|c x IH].
  - simpl app. destruct (split_nl_prefix sub y Hnl) as (rest & ls & ->).
    pose proof (contains_app sub [] rest) as Hc. simpl app in Hc.
    simpl existsb. rewrite Hc. reflexivity.
  - destruct (Ascii.eqb c nl) eqn:Hc.
    + simpl. rewrite Hc. simpl. rewrite IH. apply orb_true_r.
    + destruct (@split_nl_cons c (x ++ sub ++ y) Hc) as (l & ls & E1 & E2).
      simpl app. rewrite E2. rewrite E1 in IH. simpl in IH |- *.
      apply orb_true_iff in IH. destruct IH as [H|H].
      * change (Py.contains sub (c :: l) || existsb (Py.contains sub) ls = true).
        rewrite (contains_cons _ _ c H). reflexivity.
      * rewrite H. apply orb_true_r.
Qed.

(** The first element of a list that satisfies a test. *)
Lemma first_such (X : Type) (f : X -> bool) (l : list X) :
  existsb f l = true ->
  exists pre x post,
    l = pre ++ x :: post /\ (forall y, In y pre -> f y = false) /\ f x = true.
Proof.
  induction l as [|a l IH]; simpl; [discriminate|].
  destruct (f a) eqn:Ha.
  - intros _. exists [], a, l. repeat split; auto. intros y [].
  - simpl. intros H. destruct (IH H) as (pre & x & post & -> & Hpre & Hx).
    exists (a :: pre), x, post. repeat split; auto.
    intros y [<-|Hy]; auto.
Qed.

Lemma skipn_slice (s : str) (i j : nat) :
  i <= j -> skipn i s = Py.slice s i j ++ skipn j s.
Proof.
  intros Hij. unfold Py.slice.
  rewrite <- (firstn_skipn (j - i) (skipn i s)) at 1.
  rewrite skipn_skipn_add. now replace (j - i + i) with j by lia.
Qed.

End PyFacts.

(** * Facts about the matcher *)

Module ReFacts.

Import PyFacts.

Section Continuations.

Variables A B : Type.
Variable s : str.

(** A match that succeeds with one continuation succeeds with any
    continuation that accepts at least as often. *)
Lemma star_greedy_mono p l i (k : nat -> option A) (k' : nat -> option B) :
  (forall j, k j <> None -> k' j <> None) ->
  star_greedy p l i k <> None -> star_greedy p l i k' <> None.
Proof.
  intros Hk. revert i. induction l as [|c l IH]; intros i; simpl.
  - apply Hk.
  - destruct (p c); [|apply Hk].
    specialize (IH (S i)).
    destruct (star_greedy p l (S i) k) eqn:E1.
    + intros _. destruct (star_greedy p l (S i) k'); [discriminate|].
      exfalso. apply IH; [discriminate|reflexivity].
    + intros H. destruct (star_greedy p l (S i) k'); [discriminate|].
      now apply Hk.
Qed.

Lemma star_lazy_mono p l i (k : nat -> option A) (k' : nat -> option B) :
  (forall j, k j <> None -> k' j <> None) ->
  star_lazy p l i k <> None -> star_lazy p l i k' <> None.
Proof.
  intros Hk. revert i. induction l as [|c l IH]; intros i; simpl.
  - specialize (Hk i). destruct (k i), (k' i); try congruence.
    intros _. apply Hk. discriminate.
  - specialize (Hk i). destruct (k i) eqn:E.
    + intros _. destruct (k' i); [discriminate|]. exfalso. now apply Hk.
    + destruct (k' i); [discriminate|].
      destruct (p c); [apply IH|congruence].
Qed.

Lemma rmatch_mono r :
  forall i g (k : nat -> groups -> option A) (k' : nat -> groups -> option B),
  (forall j g', k j g' <> None -> k' j g' <> None) ->
  rmatch s r i g k <> None -> rmatch s r i g k' <> None.
Proof.
  induction r as [|c|p|p|p| | |r1 IH1 r2 IH2|r1 IH1 r2 IH2|r1 IH1|n r1 IH1];
    intros i g k k' Hk; simpl.
  - apply Hk.
  - destruct (nth_error s i) as [d|]; [|congruence].
    destruct (Ascii.eqb c d); [apply Hk|congruence].
  - apply star_greedy_mono. intros j. apply Hk.
  - destruct (nth_error s i) as [d|]; [|congruence].
    destruct (p d); [|congruence].
    apply star_greedy_mono. intros j. apply Hk.
  - apply star_lazy_mono. intros j. apply Hk.
  - destruct (at_bol s i); [apply Hk|congruence].
  - destruct (at_eol s i); [apply Hk|congruence].
  - apply IH1. intros j g'. now apply IH2.
  - specialize (IH1 i g k k' Hk). specialize (IH2 i g k k' Hk).
    destruct (rmatch s r1 i g k).
    + intros _. destruct (rmatch s r1 i g k'); [discriminate|].
      exfalso. apply IH1; [discriminate|reflexivity].
    + destruct (rmatch s r1 i g k'); [discriminate|]. exact IH2.
  - specialize (IH1 i g k k' Hk). specialize (Hk i g).
    destruct (rmatch s r1 i g k).
    + intros _. destruct (rmatch s r1 i g k'); [discriminate|].
      exfalso. apply IH1; [discriminate|reflexivity].
    + destruct (rmatch s r1 i g k'); [discriminate|]. exact Hk.
  - apply IH1. intros j g'. apply Hk.
Qed.

End Continuations.

Section Soundness.

Variable A : Type.
Variable s : str.

#[local] Arguments skipn : simpl never.

Lemma star_greedy_sound p l i (k : nat -> option A) a :
  star_greedy p l i k = Some a ->
  exists n, Forall (fun c => p c = true) (firstn n l) /\ k (i + n) = Some a.
Proof.
  revert i. induction l as [|c l IH]; intros i; simpl.
  - intros H. exists 0. rewrite Nat.add_0_r. now split.
  - destruct (p c) eqn:Hp.
    + destruct (star_greedy p l (S i) k) eqn:E.
      * intros H; inversion H; subst.
        destruct (IH _ E) as (n & Hall & Hk).
        exists (S n). simpl. split; [now constructor|].
        now rewrite Nat.add_succ_r.
      * intros H. exists 0. rewrite Nat.add_0_r. now split.
    + intros H. exists 0. rewrite Nat.add_0_r. now split.
Qed.

Lemma star_lazy_sound p l i (k : nat -> option A) a :
  star_lazy p l i k = Some a ->
  exists n, Forall (fun c => p c = true) (firstn n l) /\ k (i + n) = Some a.
Proof.
  revert i. induction l as [|c l IH]; intros i; simpl.
  - destruct (k i) eqn:E; [|discriminate].
    intros H; inversion H; subst. exists 0. rewrite Nat.add_0_r. now split.
  - destruct (k i) eqn:E.
    + intros H; inversion H; subst. exists 0. rewrite Nat.add_0_r. now split.
    + destruct (p c) eqn:Hp; [|discriminate].
      intros H. destruct (IH _ H) as (n & Hall & Hk).
      exists (S n). simpl. split; [now constructor|].
      now rewrite Nat.add_succ_r.
Qed.

(** The continuation of a successful match was called at an offset [j]
    such that the text between [i] and [j] has the shape of [r], with the
    groups outside [r] as they were. *)
Lemma rmatch_sound r :
  forall i g (k : nat -> groups -> option A) a,
  rmatch s r i g k = Some a ->
  exists j g',
    i + min_len r <= j /\
    lang r (Py.slice s i j) /\
    (forall n, ~ In n (group_ids r) -> group n g' = group n g) /\
    k j g' = Some a.
Proof.
  induction r as [|c|p|p|p| | |r1 IH1 r2 IH2|r1 IH1 r2 IH2|r1 IH1|n r1 IH1];
    intros i g k a; simpl.
  - intros H. exists i, g. rewrite slice_nil. repeat split; auto; lia.
  - destruct (nth_error s i) as [d|] eqn:E; [|discriminate].
    destruct (Ascii.eqb_spec c d) as [->|]; [|discriminate].
    intros H. exists (S i), g. rewrite (slice_one _ _ _ E).
    repeat split; auto; lia.
  - intros H. apply star_greedy_sound in H. destruct H as (n & Hall & Hk).
    exists (i + n), g. rewrite slice_firstn_skipn. repeat split; auto; lia.
  - destruct (nth_error s i) as [d|] eqn:E; [|discriminate].
    destruct (p d) eqn:Hp; [|discriminate].
    intros H. apply star_greedy_sound in H. destruct H as (n & Hall & Hk).
    exists (S i + n), g.
    assert (Es : Py.slice s i (S i + n) = d :: firstn n (skipn (S i) s)).
    { replace (S i + n) with (i + S n) by lia.
      rewrite slice_firstn_skipn, (skipn_nth_error _ _ _ E). reflexivity. }
    rewrite Es. repeat split; auto; try lia; try discriminate.
  - intros H. apply star_lazy_sound in H. destruct H as (n & Hall & Hk).
    exists (i + n), g. rewrite slice_firstn_skipn. repeat split; auto; lia.
  - destruct (at_bol s i); [|discriminate].
    intros H. exists i, g. rewrite slice_nil. repeat split; auto; lia.
  - destruct (at_eol s i); [|discriminate].
    intros H. exists i, g. rewrite slice_nil. repeat split; auto; lia.
  - intros H. apply IH1 in H. destruct H as (j & g1 & Hj & L1 & G1 & H).
    apply IH2 in H. destruct H as (j' & g2 & Hj' & L2 & G2 & H).
    exists j', g2. repeat split; auto; try lia.
    + exists (Py.slice s i j), (Py.slice s j j'). repeat split; auto.
      apply slice_app; lia.
    + intros n Hn. rewrite G2, G1; auto; intros Hin; apply Hn;
        apply in_or_app; auto.
  - destruct (rmatch s r1 i g k) eqn:E.
    + intros H; inversion H; subst.
      apply IH1 in E. destruct E as (j & g1 & Hj & L1 & G1 & H1).
      exists j, g1. repeat split; auto; try lia.
      intros n Hn. apply G1. intros Hin; apply Hn; apply in_or_app; auto.
    + intros H. apply IH2 in H. destruct H as (j & g1 & Hj & L1 & G1 & H1).
      exists j, g1. repeat split; auto; try lia.
      intros n Hn. apply G1. intros Hin; apply Hn; apply in_or_app; auto.
  - destruct (rmatch s r1 i g k) eqn:E.
    + intros H; inversion H; subst.
      apply IH1 in E. destruct E as (j & g1 & Hj & L1 & G1 & H1).
      exists j, g1. repeat split; auto; lia.
    + intros H. exists i, g. rewrite slice_nil. repeat split; auto; lia.
  - intros H. apply IH1 in H. destruct H as (j & g1 & Hj & L1 & G1 & H1).
    exists j, ((n, (i, j)) :: g1). repeat split; auto.
    intros m Hm. simpl. destruct (Nat.eqb_spec m n) as [->|Hne].
    + exfalso. apply Hm. now left.
    + apply G1. intros Hin. apply Hm. now right.
Qed.

End Soundness.

Section SearchFacts.

Variable r : regex.
Variable s : str.

Lemma match_at_start i m : match_at r s i = Some m -> m_start m = i.
Proof.
  unfold match_at. intros H. apply rmatch_sound in H.
  destruct H as (j & g' & _ & _ & _ & H). now inversion H.
Qed.

(** [search_from] returns the match at the first offset that has one. *)
Lemma search_from_some fuel : forall i m,
  search_from r s fuel i = Some m ->
  i <= m_start m <= i + fuel /\ match_at r s (m_start m) = Some m.
Proof.
  induction fuel as [|f IH]; intros i m; simpl.
  - destruct (match_at r s i) eqn:E; [|discriminate].
    intros H; inversion H; subst. rewrite (match_at_start _ _ E). split; [lia|auto].
  - destruct (match_at r s i) eqn:E.
    + intros H; inversion H; subst. rewrite (match_at_start _ _ E). split; [lia|auto].
    + intros H. apply IH in H. split; [lia|tauto].
Qed.

Lemma search_from_leftmost fuel : forall i p,
  i <= p <= i + fuel -> match_at r s p <> None ->
  exists m, search_from r s fuel i = Some m /\ m_start m <= p.
Proof.
  induction fuel as [|f IH]; intros i p Hp Hm; simpl.
  - assert (p = i) by lia. subst p.
    destruct (match_at r s i) eqn:E; [|congruence].
    eexists; split; eauto. rewrite (match_at_start _ _ E). lia.
  - destruct (match_at r s i) eqn:E.
    + eexists; split; eauto. rewrite (match_at_start _ _ E). lia.
    + assert (p <> i) by (intros ->; congruence).
      destruct (IH (S i) p) as (m & H1 & H2); [lia|auto|].
      exists m. split; auto.
Qed.

Lemma finditer_from_in fuel : forall pos m,
  In m (finditer_from r s fuel pos) -> match_at r s (m_start m) = Some m.
Proof.
  induction fuel as [|f IH]; intros pos m; simpl; [tauto|].
  destruct (search_from r s (length s - pos) pos) as [m0|] eqn:E; [|simpl; tauto].
  intros [<-|Hin].
  - now apply search_from_some in E.
  - eapply IH; eauto.
Qed.

Lemma finditer_in m :
  In m (finditer r s) -> match_at r s (m_start m) = Some m.
Proof. apply finditer_from_in. Qed.

(** [finditer] is empty exactly when [search] finds nothing. *)
Lemma finditer_nil_iff : finditer r s = [] <-> search r s = None.
Proof.
  unfold finditer, search. simpl. rewrite Nat.sub_0_r.
  destruct (search_from r s (length s) 0); split; congruence.
Qed.

End SearchFacts.

End ReFacts.

(** * Facts about the scripts' patterns *)

Module PatternFacts.

Import PyFacts ReFacts.

Lemma lang_lits (w x : str) : lang (lits w) x -> x = w.
Proof.
  revert x. induction w as [|c w IH]; intros x; simpl.
  - auto.
  - destruct w as [|c' w]; simpl; [auto|].
    intros (u & v & -> & -> & Hv). apply IH in Hv. now subst.
Qed.

(** A match of the brace line covers white space, the brace, white space
    and a line break; it sets group 1 only. *)
Lemma brace_line_sound (A : Type) (s : str) i g
    (k : nat -> groups -> option A) a :
  rmatch s brace_line i g k = Some a ->
  exists j g' u v,
    i + 2 <= j /\
    Py.slice s i j = u ++ "}"%char :: v ++ [nl] /\
    Forall (fun c => Py.isspace c = true) u /\
    Forall (fun c => Py.isspace c = true) v /\
    (forall n, n <> 1 -> group n g' = group n g) /\
    k j g' = Some a.
Proof.
  intros H. apply rmatch_sound in H.
  destruct H as (j & g' & Hj & L & G & H).
  simpl in L.
  destruct L as (u0 & v0 & E0 & -> & u1 & v1 & -> & Hu1 & u2 & v2 & -> & ->
                 & u3 & v3 & -> & Hu3 & ->).
  exists j, g', u1, u3. simpl in Hj. repeat split; auto.
  intros n Hn. apply G. simpl. intros [Heq|[]]. congruence.
Qed.

(** The first line of a text that starts with a brace line holds white
    space and closing braces only. *)
Lemma first_line_of_brace_line (u v rest line : str) (ls : list str) :
  Forall (fun c => Py.isspace c = true) u ->
  Forall (fun c => Py.isspace c = true) v ->
  Py.split_nl ((u ++ "}"%char :: v ++ [nl]) ++ rest) = line :: ls ->
  forall c, In c line -> Py.isspace c = true \/ c = "}"%char.
Proof.
  intros Hu Hv E c Hc.
  replace ((u ++ "}"%char :: v ++ [nl]) ++ rest)
    with ((u ++ "}"%char :: v) ++ nl :: rest) in E.
  2:{ rewrite <- !app_assoc. simpl. now rewrite <- app_assoc. }
  rewrite split_nl_app in E.
  destruct (Py.split_nl (u ++ "}"%char :: v)) as [|l0 ls0] eqn:E0.
  { now apply split_nl_not_nil in E0. }
  inversion E; subst.
  assert (Hin : In c (u ++ "}"%char :: v)).
  { apply (split_nl_chars (u ++ "}"%char :: v) line c); auto.
    rewrite E0. now left. }
  apply in_app_or in Hin. rewrite Forall_forall in Hu, Hv.
  destruct Hin as [Hin|[<-|Hin]]; auto.
Qed.

Section Single.

Import fix_all_class_methods.

Variable s : str.

(** Where the detector's pattern matches, so does the class-end pattern. *)
Lemma class_end_matches_where_pattern_does i :
  match_at pattern s i <> None -> match_at class_end_pattern s i <> None.
Proof.
  unfold match_at.
  change (rmatch s pattern i [] (fun j g => Some (MatchObj i j g)))
    with (rmatch s class_end_pattern i []
            (fun j g => rmatch s (export_rest ;; doc_comment ;; method_head) j g
                          (fun j' g' => Some (MatchObj i j' g')))).
  apply rmatch_mono. intros; discriminate.
Qed.

(** The second search succeeds whenever the first one does, at an offset
    that is not after it. *)
Lemma class_end_found mt :
  Re.search pattern s = Some mt ->
  exists cm, Re.search class_end_pattern s = Some cm /\ m_start cm <= m_start mt.
Proof.
  unfold Re.search. intros H. apply search_from_some in H.
  destruct H as [Hr Hm].
  apply search_from_leftmost; [lia|].
  apply class_end_matches_where_pattern_does. congruence.
Qed.

Lemma name_no_nl : ~ In nl name.
Proof.
  intros H. vm_compute in H.
  repeat (destruct H as [H|H]; [discriminate|]). exact H.
Qed.

(** From the start of a match on, the first line does not hold the method
    name and a later line does. *)
Lemma match_lines i mt :
  match_at pattern s i = Some mt ->
  exists pre decl post,
    Py.split_nl (Py.from s i) = pre ++ decl :: post /\
    pre <> [] /\
    (forall l, In l pre -> Py.contains name l = false) /\
    Py.contains name decl = true.
Proof.
  unfold match_at.
  change (rmatch s pattern i [] (fun j g => Some (MatchObj i j g)))
    with (rmatch s brace_line i []
            (fun j1 g1 =>
               rmatch s (export_default ;; export_rest ;; doc_comment) j1 g1
                 (fun j2 g2 =>
                    rmatch s (lits name) j2 g2
                      (fun j3 g3 =>
                         rmatch s (Star Py.isspace ;; Lit "{") j3 g3
                           (fun j g => Some (MatchObj i j g)))))).
  intros H. apply brace_line_sound in H.
  destruct H as (j1 & g1 & u & v & Hj1 & E1 & Hu & Hv & _ & H).
  apply rmatch_sound in H. destruct H as (j2 & g2 & Hj2 & _ & _ & H).
  apply rmatch_sound in H. destruct H as (j3 & g3 & Hj3 & L3 & _ & H).
  apply lang_lits in L3.
  assert (Hshape : Py.from s i = Py.slice s i j2 ++ name ++ skipn j3 s).
  { unfold Py.from. rewrite (skipn_slice s i j2) by lia.
    rewrite (skipn_slice s j2 j3) by lia. now rewrite L3. }
  assert (Hfirst : Py.from s i = (u ++ "}"%char :: v ++ [nl]) ++ skipn j1 s).
  { unfold Py.from. rewrite (skipn_slice s i j1) by lia. now rewrite E1. }
  pose proof (some_line_contains name (Py.slice s i j2) (skipn j3 s) name_no_nl)
    as Hex.
  rewrite <- Hshape in Hex.
  apply first_such in Hex. destruct Hex as (pre & decl & post & E & Hpre & Hd).
  exists pre, decl, post. repeat split; auto.
  intros ->. simpl in E. rewrite Hfirst in E.
  pose proof (first_line_of_brace_line u v (skipn j1 s) _ _ Hu Hv E) as Hchars.
  apply contains_head in Hd. apply Hchars in Hd.
  destruct Hd as [Hd|Hd]; vm_compute in Hd; discriminate.
Qed.

End Single.

Section Multi.

Import fix_class_methods.

Variable s : str.

(** Group 2 of a match starts at least three characters after the match
    does: the brace and two line breaks lie in between. *)
Lemma match_group2 i mt :
  match_at pattern s i = Some mt ->
  m_start mt = i /\ i + 3 <= start2 mt.
Proof.
  unfold match_at.
  change (rmatch s pattern i [] (fun j g => Some (MatchObj i j g)))
    with (rmatch s brace_line i []
            (fun j1 g1 =>
               rmatch s (Lit nl) j1 g1
                 (fun j2 g2 =>
                    rmatch s (Plus Py.isspace) j2 g2
                      (fun j3 g3 =>
                         rmatch s method_head j3 ((2, (j2, j3)) :: g3)
                           (fun j g => Some (MatchObj i j g)))))).
  intros H. apply brace_line_sound in H.
  destruct H as (j1 & g1 & u & v & Hj1 & _ & _ & _ & _ & H).
  apply rmatch_sound in H. destruct H as (j2 & g2 & Hj2 & _ & _ & H).
  apply rmatch_sound in H. destruct H as (j3 & g3 & Hj3 & _ & _ & H).
  apply rmatch_sound in H. destruct H as (j4 & g4 & Hj4 & _ & G4 & H).
  inversion H; subst; clear H. simpl. split; [reflexivity|].
  unfold start2. simpl m_groups. rewrite G4.
  - simpl in *. lia.
  - simpl. intros [Heq|[]]. discriminate.
Qed.

End Multi.

End PatternFacts.

(** * Facts about the two method-end loops *)

Module ScanFacts.

Import PyFacts.

Lemma balance_firstn_S (l : str) (rest : list str) (n : nat) :
  balance (firstn (S n) (l :: rest)) = (braces l + balance (firstn n rest))%Z.
Proof. reflexivity. Qed.

Section Single.

Import fix_all_class_methods.

(** The result is the sentinel [0] or the index of a scanned line. *)
Lemma find_range lines : forall i c,
  find_method_end lines i c = 0 \/
  i <= find_method_end lines i c < i + length lines.
Proof.
  induction lines as [|l rest IH]; intros i c; simpl; [now left|].
  destruct (Py.contains name l).
  - destruct (IH (S i) 1%Z) as [H|H]; [now left|right; lia].
  - destruct (0 <? c)%Z.
    + destruct (c + braces l =? 0)%Z.
      * right. lia.
      * destruct (IH (S i) (c + braces l)%Z) as [H|H]; [now left|right; lia].
    + destruct (IH (S i) c) as [H|H]; [now left|right; lia].
Qed.

(** Without a seed nothing is counted. *)
Lemma find_unseeded lines : forall i c,
  (c <= 0)%Z ->
  (forall l, In l lines -> Py.contains name l = false) ->
  find_method_end lines i c = 0.
Proof.
  induction lines as [|l rest IH]; intros i c Hc Hn; simpl; [reflexivity|].
  rewrite (Hn l) by now left.
  destruct (Z.ltb_spec 0 c); [lia|].
  apply IH; auto. intros l' Hl'. apply Hn. now right.
Qed.

Lemma find_skip pre : forall rest i,
  (forall l, In l pre -> Py.contains name l = false) ->
  find_method_end (pre ++ rest) i 0 = find_method_end rest (i + length pre) 0.
Proof.
  induction pre as [|l pre IH]; intros rest i Hn; simpl.
  - now rewrite Nat.add_0_r.
  - rewrite (Hn l) by now left.
    rewrite IH by (intros l' Hl'; apply Hn; now right).
    f_equal. lia.
Qed.

Lemma find_seed decl post i c :
  Py.contains name decl = true ->
  find_method_end (decl :: post) i c = find_method_end post (S i) 1.
Proof. intros H. simpl. now rewrite H. Qed.

(** After the seed: the loop stops at the first line at which the count is
    zero, provided the count was positive on all lines before it. *)
Lemma find_after_seed post : forall i c n,
  (0 < c)%Z -> 0 < i ->
  (forall l, In l post -> Py.contains name l = false) ->
  find_method_end post i c = i + n <->
  n < length post /\
  (c + balance (firstn (S n) post) = 0)%Z /\
  (forall m, m <= n -> (0 < c + balance (firstn m post))%Z).
Proof.
  induction post as [|l rest IH]; intros i c n Hc Hi Hn.
  - simpl. split; [lia|]. intros [H _]. inversion H.
  - assert (Hl : Py.contains name l = false) by (apply Hn; now left).
    assert (Hrest : forall l', In l' rest -> Py.contains name l' = false)
      by (intros l' Hl'; apply Hn; now right).
    cbn [find_method_end]. rewrite Hl.
    destruct (Z.ltb_spec 0 c) as [_|]; [|lia].
    rewrite balance_firstn_S.
    destruct (Z.eqb_spec (c + braces l) 0) as [Hz|Hz].
    + split.
      * intros E. assert (n = 0) by lia. subst n. simpl.
        repeat split; try lia. intros m Hm. assert (m = 0) by lia. subst m.
        simpl. lia.
      * intros (_ & _ & Hpos). destruct n as [|n]; [lia|].
        specialize (Hpos 1). simpl in Hpos. lia.
    + destruct (Z.ltb_spec 0 (c + braces l)) as [Hp|Hp].
      * specialize (IH (S i) (c + braces l)%Z).
        split.
        -- intros E.
           destruct (find_range rest (S i) (c + braces l)%Z) as [R|R]; [lia|].
           destruct n as [|n]; [lia|].
           destruct (IH n Hp ltac:(lia) Hrest) as [IH1 _].
           destruct IH1 as (L & B & P); [lia|].
           repeat split.
           ++ simpl. lia.
           ++ lia.
           ++ intros m Hm. destruct m as [|m]; [simpl; lia|].
              rewrite balance_firstn_S. specialize (P m). lia.
        -- intros (L & B & P). destruct n as [|n].
           ++ simpl in B. lia.
           ++ destruct (IH n Hp ltac:(lia) Hrest) as [_ IH2].
              replace (i + S n) with (S i + n) by lia. apply IH2.
              repeat split.
              ** simpl in L. lia.
              ** lia.
              ** intros m Hm. specialize (P (S m)).
                 rewrite balance_firstn_S in P. lia.
      * rewrite find_unseeded by (auto; lia).
        split; [lia|]. intros (_ & B & P). destruct n as [|n].
        -- simpl in B. lia.
        -- specialize (P 1). simpl in P. lia.
Qed.

(** An end line found after the seed is the end line of the described
    scan. *)
Lemma find_agrees_with_description post : forall i c j,
  (0 < c)%Z ->
  (forall l, In l post -> Py.contains name l = false) ->
  find_method_end post i c = j -> j <> 0 ->
  spec_first_balanced post i c = Some j.
Proof.
  induction post as [|l rest IH]; intros i c j Hc Hn E Hj; simpl in *.
  - congruence.
  - rewrite (Hn l) in E by now left.
    destruct (Z.ltb_spec 0 c) as [_|]; [|lia].
    destruct (Z.eqb_spec (c + braces l) 0) as [Hz|Hz]; [congruence|].
    destruct (Z.ltb_spec 0 (c + braces l)) as [Hp|Hp].
    + apply IH; auto.
    + rewrite find_unseeded in E by (auto; lia). congruence.
Qed.

End Single.

Section Multi.

Import fix_class_methods.

Lemma find_range_multi lines : forall i c,
  find_method_end lines i c = 0 \/
  i <= find_method_end lines i c < i + length lines.
Proof.
  induction lines as [|l rest IH]; intros i c; simpl; [now left|].
  destruct ((c + braces l =? 0)%Z && Py.has "}" l).
  - right. lia.
  - destruct (IH (S i) (c + braces l)%Z) as [H|H]; [now left|right; lia].
Qed.

(** The loop stops at the first line at which the count is zero and that
    holds a closing brace. *)
Lemma find_multi_iff lines : forall i c n,
  0 < i + n ->
  find_method_end lines i c = i + n <->
  n < length lines /\
  (c + balance (firstn (S n) lines) = 0)%Z /\
  Py.has "}" (nth n lines []) = true /\
  (forall m, m < n ->
     ~ ((c + balance (firstn (S m) lines) = 0)%Z /\
        Py.has "}" (nth m lines []) = true)).
Proof.
  induction lines as [|l rest IH]; intros i c n Hin.
  - simpl. split; [lia|]. intros [H _]. inversion H.
  - cbn [find_method_end]. rewrite balance_firstn_S.
    destruct ((c + braces l =? 0)%Z && Py.has "}" l) eqn:T.
    + apply andb_true_iff in T. destruct T as [Tz Th].
      apply Z.eqb_eq in Tz.
      split.
      * intros E. assert (n = 0) by lia. subst n. simpl.
        repeat split; auto; try lia.
      * intros (_ & _ & _ & Hfirst). destruct n as [|n]; [lia|].
        exfalso. apply (Hfirst 0); [lia|]. simpl. split; [lia|auto].
    + specialize (IH (S i) (c + braces l)%Z).
      split.
      * intros E.
        destruct (find_range_multi rest (S i) (c + braces l)%Z) as [R|R]; [lia|].
        destruct n as [|n]; [lia|].
        destruct (IH n ltac:(lia)) as [IH1 _].
        destruct IH1 as (L & B & Hh & F); [lia|].
        repeat split.
        -- simpl. lia.
        -- lia.
        -- exact Hh.
        -- intros m Hm [Bm Hhm]. destruct m as [|m].
           ++ simpl in Bm, Hhm. apply andb_false_iff in T.
              destruct T as [T|T]; [apply Z.eqb_neq in T; lia|congruence].
           ++ rewrite balance_firstn_S in Bm. apply (F m); [lia|].
              split; [lia|exact Hhm].
      * intros (L & B & Hh & F). destruct n as [|n].
        -- simpl in B, Hh. apply andb_false_iff in T.
           destruct T as [T|T]; [apply Z.eqb_neq in T; lia|congruence].
        -- destruct (IH n ltac:(lia)) as [_ IH2].
           replace (i + S n) with (S i + n) by lia. apply IH2.
           repeat split.
           ++ simpl in L. lia.
           ++ lia.
           ++ exact Hh.
           ++ intros m Hm [Bm Hhm]. apply (F (S m)); [lia|].
              rewrite balance_firstn_S. split; [lia|exact Hhm].
Qed.

End Multi.

End ScanFacts.

(** * Facts about [fix_file] *)

Module FixFacts.

Import PyFacts ReFacts PatternFacts ScanFacts.

(** The single-method variant: no end line, no write. *)
Lemma single_no_method_end (content : str) (mt : match_obj) :
  Re.search fix_all_class_methods.pattern content = Some mt ->
  fix_all_class_methods.find_method_end
    (Py.split_nl (Py.from content (m_start mt))) 0 0 = 0 ->
  fix_all_class_methods.fix_file content
  = Outcome [Checking; FoundIssue; CouldNotFindMethodEnd] None false.
Proof.
  intros Hs Hf. unfold fix_all_class_methods.fix_file. rewrite Hs.
  destruct (class_end_found content mt Hs) as (cm & -> & _).
  now rewrite Hf.
Qed.

(** The multi-method variant: a match without end line leaves the working
    copy as it is. *)
Lemma multi_skip (working : str) (mt : match_obj) :
  fix_class_methods.find_method_end
    (Py.split_nl (Py.from working (fix_class_methods.start2 mt))) 0 0 = 0 ->
  fix_class_methods.process_match working mt
  = (working, [CouldNotFindMethodEnd]).
Proof.
  intros Hf. unfold fix_class_methods.process_match. now rewrite Hf.
Qed.

(** A match for which one of the two boundaries is not found leaves the
    working copy as it is. *)
Lemma multi_skip_either (working : str) (mt : match_obj) :
  fix_class_methods.find_method_end
    (Py.split_nl (Py.from working (fix_class_methods.start2 mt))) 0 0 = 0 \/
  Re.search fix_class_methods.class_end_pattern
    (rev (Py.upto working (m_start mt))) = None ->
  exists msg,
    fix_class_methods.process_match working mt = (working, [msg]) /\
    (msg = CouldNotFindMethodEnd \/ msg = CouldNotFindClassEnd).
Proof.
  intros H. unfold fix_class_methods.process_match.
  destruct (fix_class_methods.find_method_end
              (Py.split_nl (Py.from working (fix_class_methods.start2 mt))) 0 0
            =? 0) eqn:E.
  - exists CouldNotFindMethodEnd. split; [reflexivity|now left].
  - destruct H as [H|H].
    + rewrite H in E. discriminate.
    + rewrite H. exists CouldNotFindClassEnd. split; [reflexivity|now right].
Qed.

Lemma multi_all_skipped (content : str) (visited : list match_obj) :
  (forall mt, In mt visited ->
     fix_class_methods.find_method_end
       (Py.split_nl (Py.from content (fix_class_methods.start2 mt))) 0 0 = 0 \/
     Re.search fix_class_methods.class_end_pattern
       (rev (Py.upto content (m_start mt))) = None) ->
  exists msgs,
    fix_class_methods.process_matches content visited = (content, msgs) /\
    length msgs = length visited /\
    Forall (fun m => m = CouldNotFindMethodEnd \/ m = CouldNotFindClassEnd)
      msgs.
Proof.
  induction visited as [|mt rest IH]; intros H; simpl.
  - exists []. now repeat split.
  - destruct (multi_skip_either content mt (H mt (or_introl eq_refl)))
      as (msg & -> & Hmsg).
    destruct (IH (fun m Hm => H m (or_intror Hm))) as (msgs & -> & Hlen & Hall).
    exists (msg :: msgs). simpl. repeat split; auto.
Qed.

(** The second loop of the single-method variant starts collecting at the
    first line that holds the method name. *)
Lemma collect_skip pre : forall rest i mel,
  (forall l, In l pre -> Py.contains fix_all_class_methods.name l = false) ->
  fix_all_class_methods.collect_method_lines (pre ++ rest) i false mel
  = fix_all_class_methods.collect_method_lines rest (i + length pre) false mel.
Proof.
  induction pre as [|l pre IH]; intros rest i mel Hn; simpl.
  - now rewrite Nat.add_0_r.
  - rewrite (Hn l) by now left. simpl.
    rewrite IH by (intros l' Hl'; apply Hn; now right).
    f_equal. lia.
Qed.



(** The text between [start] and the end offset computed by both scripts
    is the block of lines up to the end line, and the end offset is at a
    line break or at the end of the text. *)
Lemma end_offset_is_end_of_line (content : str) (start j : nat) :
  j < length (Py.split_nl (Py.from content start)) ->
  let method_text :=
    Py.join_nl (firstn (j + 1) (Py.split_nl (Py.from content start))) in
  let method_full_end := start + length method_text in
  Py.slice content start method_full_end = method_text /\
  (Py.from content method_full_end = [] \/
   exists rest, Py.from content method_full_end = nl :: rest).
Proof.
  intros Hj method_text method_full_end.
  destruct (join_firstn_split (Py.from content start) j Hj) as (P1 & P2 & P3).
  fold method_text in P1, P2, P3.
  split.
  - unfold method_full_end. rewrite slice_firstn_skipn. exact P1.
  - unfold Py.from in *. rewrite skipn_skipn_add in P2, P3.
    replace (length method_text + start) with method_full_end in P2, P3
      by (unfold method_full_end; lia).
    destruct (Nat.eq_dec (S j) (length (Py.split_nl (skipn start content))))
      as [Heq|Hneq].
    + left. now apply P3.
    + right. eexists. apply P2. lia.
Qed.

Lemma fix_all_class_methods_find_skip_seed pre decl post :
  (forall l, In l pre -> Py.contains fix_all_class_methods.name l = false) ->
  Py.contains fix_all_class_methods.name decl = true ->
  fix_all_class_methods.find_method_end (pre ++ decl :: post) 0 0
  = fix_all_class_methods.find_method_end post (S (length pre)) 1.
Proof.
  intros Hpre Hd. rewrite find_skip by exact Hpre.
  now rewrite find_seed by exact Hd.
Qed.

(** In the single-method variant [method_start] never points at the
    method's name: the character there is white space or a closing brace. *)
Lemma single_method_start_not_name (content : str) (mt : match_obj) (c : ascii) :
  Re.search fix_all_class_methods.pattern content = Some mt ->
  nth_error content (m_start mt) = Some c ->
  Py.isspace c = true \/ c = "}"%char.
Proof.
  intros Hs Hc. unfold Re.search in Hs. apply search_from_some in Hs.
  destruct Hs as [_ Hm]. unfold match_at in Hm.
  change (rmatch content fix_all_class_methods.pattern (m_start mt) []
            (fun j g => Some (MatchObj (m_start mt) j g)))
    with (rmatch content brace_line (m_start mt) []
            (fun j1 g1 =>
               rmatch content
                 (fix_all_class_methods.export_default ;;
                  fix_all_class_methods.export_rest ;;
                  fix_all_class_methods.doc_comment ;;
                  fix_all_class_methods.method_head) j1 g1
                 (fun j g => Some (MatchObj (m_start mt) j g)))) in Hm.
  apply brace_line_sound in Hm.
  destruct Hm as (j & g' & u & v & Hj & E & Hu & Hv & _).
  unfold Py.slice in E. rewrite (skipn_nth_error _ _ _ Hc) in E.
  destruct (j - m_start mt) as [|k] eqn:Ek; [lia|]. simpl in E.
  destruct u as [|d u]; simpl in E; inversion E; subst; auto.
  left. now inversion Hu.
Qed.

(** *** The multi-method variant keeps the balance of braces *)

Lemma braces_indent_line (l : str) : braces (indent_line l) = braces l.
Proof.
  unfold indent_line. destruct (Py.truthy (Py.strip l)); [|reflexivity].
  now rewrite braces_app.
Qed.

Lemma balance_indent (ls : list str) : balance (map indent_line ls) = balance ls.
Proof.
  induction ls as [|l ls IH]; simpl; [reflexivity|].
  now rewrite braces_indent_line, IH.
Qed.

Lemma multi_process_match_braces (working : str) (mt : match_obj) :
  m_start mt <= fix_class_methods.start2 mt ->
  braces (fst (fix_class_methods.process_match working mt)) = braces working.
Proof.
  intros Hle. unfold fix_class_methods.process_match.
  set (msp := fix_class_methods.start2 mt) in *.
  set (lines := Py.split_nl (Py.from working msp)).
  set (j := fix_class_methods.find_method_end lines 0 0).
  destruct (Nat.eqb_spec j 0) as [|Hj]; [reflexivity|].
  destruct (Re.search fix_class_methods.class_end_pattern
              (rev (Py.upto working (m_start mt)))) as [cm|]; [|reflexivity].
  cbn [fst].
  set (ip := m_start mt - m_start cm).
  set (mlines := firstn (j + 1) lines).
  assert (Hjl : j < length lines).
  { destruct (find_range_multi lines 0 0%Z) as [H|H]; fold j in H; lia. }
  destruct (join_firstn_split (Py.from working msp) j Hjl) as (P1 & _ & _).
  fold lines in P1. fold mlines in P1.
  assert (Hw : working
               = Py.upto working ip ++ Py.slice working ip msp
                 ++ Py.join_nl mlines
                 ++ Py.from working (msp + length (Py.join_nl mlines))).
  { unfold Py.upto, Py.from in *.
    rewrite <- (firstn_skipn ip working) at 1. f_equal.
    rewrite (skipn_slice working ip msp) by (unfold ip; lia). f_equal.
    rewrite <- (firstn_skipn (length (Py.join_nl mlines)) (skipn msp working))
      at 1.
    rewrite P1, skipn_skipn_add. f_equal. f_equal. lia. }
  assert (Hb : braces working
               = (braces (Py.upto working ip) + braces (Py.slice working ip msp)
                  + braces (Py.join_nl mlines)
                  + braces (Py.from working (msp + length (Py.join_nl mlines))))%Z).
  { rewrite Hw at 1. rewrite !braces_app. lia. }
  rewrite Hb, !braces_app, braces_nl, !braces_join, balance_indent. lia.
Qed.

Lemma multi_process_matches_braces (visited : list match_obj) :
  forall working,
  (forall mt, In mt visited -> m_start mt <= fix_class_methods.start2 mt) ->
  braces (fst (fix_class_methods.process_matches working visited))
  = braces working.
Proof.
  induction visited as [|mt rest IH]; intros working H; simpl; [reflexivity|].
  pose proof (multi_process_match_braces working mt (H mt (or_introl eq_refl)))
    as H1.
  destruct (fix_class_methods.process_match working mt) as [w1 msgs1].
  specialize (IH w1 (fun m Hm => H m (or_intror Hm))).
  destruct (fix_class_methods.process_matches w1 rest) as [w2 msgs2].
  simpl in *. congruence.
Qed.

(** Whatever the text, the multi-method variant writes back a text with
    the same number of opening minus closing braces. *)
Lemma multi_fix_file_preserves_braces (content : str) :
  braces (file_after content (fix_class_methods.fix_file content))
  = braces content.
Proof.
  unfold fix_class_methods.fix_file.
  destruct (Re.finditer fix_class_methods.pattern content) as [|m ms] eqn:E;
    [reflexivity|].
  pose proof (multi_process_matches_braces (rev (m :: ms)) content) as H.
  destruct (fix_class_methods.process_matches content (rev (m :: ms)))
    as [w msgs].
  unfold file_after. cbn [written fst] in *. apply H.
  intros mt Hin. apply in_rev in Hin. rewrite <- E in Hin.
  apply finditer_in in Hin.
  destruct (match_group2 content (m_start mt) mt Hin) as [_ H3]. lia.
Qed.

End FixFacts.

(** * The claims *)

Import PyFacts ReFacts PatternFacts ScanFacts FixFacts.

(** C1.  Scenario A, single-method variant.  The claim expects the method
    indented inside the class, the class's closing brace after it and the
    export statement kept.  The script writes the text below instead: the
    method is indented and placed after [bar], but the class's closing brace
    and the export statement are gone, because the removed region starts at
    the start of the match and not at the method. *)
Theorem C1_scenario_A_loses_class_end_and_export :
  let o := fix_all_class_methods.fix_file scenario_A in
  o = Outcome [Checking; FoundIssue; FixedFile]
        (Some (text [ "class Foo {";
                      "  bar(){}";
                      "";
                      "    getSelfAwarenessStatus() {";
                      "      return 1;";
                      "    }";
                      "";
                      "" ]%string))
        true /\
  Py.contains (Py.lit "export default Foo;") (file_after scenario_A o) = false /\
  Py.count "}" scenario_A = 3 /\
  Py.count "}" (file_after scenario_A o) = 2.
Proof. vm_compute. repeat split; reflexivity. Qed.

(** C2, as stated, fails: in the multi-method variant the second method of
    this text has no end line, which is reported, and yet the first method is
    moved and the changed text is written. *)
Lemma C2_partial_edit_is_written :
  let o := fix_class_methods.fix_file second_method_unclosed in
  o = Outcome [Fixing; CouldNotFindMethodEnd; FixedMethod]
        (Some (text [ "class Foo {";
                      "  bar() {";
                      "  }";
                      "";
                      "      healthCheck() {";
                      "        return 1;";
                      "      }";
                      "}";
                      "";
                      "";
                      "";
                      "  getSelfAwarenessStatus() {";
                      "    return 2;";
                      "" ]%string))
        true /\
  file_after second_method_unclosed o <> second_method_unclosed.
Proof.
  vm_compute. split; [reflexivity|]. intros H. discriminate H.
Qed.

(** C2, amended.  Single-method variant: when the scan finds no end line,
    [fix_file] reports it, returns [False] and writes nothing; a call that
    reports a boundary as not found never writes.  Multi-method variant: a
    match for which the method end or the class end is not found is reported
    and skipped, the working copy staying as it is; when this is so for
    every match the text written back is the text read (and [True] is
    returned). *)
Theorem C2_unresolved_boundary_leaves_text (content : str) :
  (forall mt,
     Re.search fix_all_class_methods.pattern content = Some mt ->
     fix_all_class_methods.find_method_end
       (Py.split_nl (Py.from content (m_start mt))) 0 0 = 0 ->
     fix_all_class_methods.fix_file content
     = Outcome [Checking; FoundIssue; CouldNotFindMethodEnd] None false) /\
  (let o := fix_all_class_methods.fix_file content in
   In CouldNotFindMethodEnd (printed o) \/ In CouldNotFindClassEnd (printed o) ->
   written o = None /\ returned o = false /\ file_after content o = content) /\
  (forall mt,
     fix_class_methods.find_method_end
       (Py.split_nl (Py.from content (fix_class_methods.start2 mt))) 0 0 = 0 \/
     Re.search fix_class_methods.class_end_pattern
       (rev (Py.upto content (m_start mt))) = None ->
     exists msg,
       fix_class_methods.process_match content mt = (content, [msg]) /\
       (msg = CouldNotFindMethodEnd \/ msg = CouldNotFindClassEnd)) /\
  (Re.finditer fix_class_methods.pattern content <> [] ->
   (forall mt,
      In mt (Re.finditer fix_class_methods.pattern content) ->
      fix_class_methods.find_method_end
        (Py.split_nl (Py.from content (fix_class_methods.start2 mt))) 0 0 = 0 \/
      Re.search fix_class_methods.class_end_pattern
        (rev (Py.upto content (m_start mt))) = None) ->
   let o := fix_class_methods.fix_file content in
   written o = Some content /\
   returned o = true /\
   file_after content o = content /\
   exists msgs,
     printed o = Fixing :: msgs /\
     length msgs = length (Re.finditer fix_class_methods.pattern content) /\
     Forall (fun m => m = CouldNotFindMethodEnd \/ m = CouldNotFindClassEnd)
       msgs).
Proof.
  split; [|split; [|split]].
  - intros mt. apply single_no_method_end.
  - unfold fix_all_class_methods.fix_file.
    destruct (Re.search fix_all_class_methods.pattern content) as [mt|].
    + destruct (Re.search fix_all_class_methods.class_end_pattern content)
        as [cm|].
      * destruct (fix_all_class_methods.find_method_end _ 0 0 =? 0).
        -- intros _. now repeat split.
        -- simpl. intros [H|H];
             repeat (destruct H as [H|H]; [discriminate H|]); destruct H.
      * intros _. now repeat split.
    + intros _. now repeat split.
  - intros mt. apply multi_skip_either.
  - intros Hne Hall. unfold fix_class_methods.fix_file.
    destruct (Re.finditer fix_class_methods.pattern content) as [|m ms] eqn:E;
      [congruence|].
    destruct (multi_all_skipped content (rev (m :: ms))) as (msgs & -> & L & F).
    + intros mt Hin. apply Hall. now apply in_rev.
    + unfold file_after. cbn [written returned printed].
      repeat split; auto. exists msgs. rewrite length_rev in L. now repeat split.
Qed.

Lemma C2_unresolved_boundary_leaves_text_witness :
  fix_all_class_methods.fix_file scenario_C
  = Outcome [Checking; FoundIssue; CouldNotFindMethodEnd] None false /\
  file_after scenario_C_multi (fix_class_methods.fix_file scenario_C_multi)
  = scenario_C_multi.
Proof.
  split.
  - destruct (C2_unresolved_boundary_leaves_text scenario_C) as [H _].
    apply (H (MatchObj 22 71 [(1, (22, 22))])); vm_compute; reflexivity.
  - destruct (C2_unresolved_boundary_leaves_text scenario_C_multi)
      as (_ & _ & _ & H).
    apply H.
    + vm_compute. discriminate.
    + vm_compute. intros mt [<-|[]]. left. reflexivity.
Defined.

(** C3.  Brace balance on Scenario A, single-method variant: the text read
    is balanced, the text written has one closing brace less, the class's. *)
Theorem C3_scenario_A_brace_balance :
  braces scenario_A = 0%Z /\
  braces (file_after scenario_A (fix_all_class_methods.fix_file scenario_A))
  = 1%Z.
Proof. vm_compute. split; reflexivity. Qed.

(** C4, as stated, fails in the multi-method variant, whose count is not
    seeded at 1 but takes in the braces of the declaration line.  First
    text: the method's two braces lie on its declaration line and a closing
    brace follows; the scan of the claim ends at the next line, the script
    finds the count at zero on line 0 and takes that for "no end line".
    Second text: the declaration line opens two braces; the scan of the
    claim ends at line 1, the script at line 2. *)
Lemma C4_scan_differs_from_description :
  let mt := MatchObj 26 46 [(3, (31, 42)); (2, (29, 31)); (1, (26, 26))] in
  let lines :=
    Py.split_nl (Py.from one_line_then_brace (fix_class_methods.start2 mt)) in
  let lines' :=
    Py.split_nl
      (Py.from nested_on_declaration_line (fix_class_methods.start2 mt)) in
  (Re.finditer fix_class_methods.pattern one_line_then_brace = [mt] /\
   lines = map Py.lit ["  healthCheck() { return 1; }"; "}"; ""]%string /\
   spec_method_end_line lines 0 = Some 1 /\
   fix_class_methods.find_method_end lines 0 0 = 0 /\
   fix_class_methods.process_match one_line_then_brace mt
   = (one_line_then_brace, [CouldNotFindMethodEnd])) /\
  (Re.finditer fix_class_methods.pattern nested_on_declaration_line = [mt] /\
   lines' = map Py.lit [ "  healthCheck() { if (this.ok) {";
                         "    return 1; }"; "  }"; "" ]%string /\
   spec_method_end_line lines' 0 = Some 1 /\
   fix_class_methods.find_method_end lines' 0 0 = 2).
Proof. vm_compute. repeat split; reflexivity. Qed.

(** C4, amended.  Single-method variant, for lines [pre ++ decl :: post]
    from the start of the match on, [decl] being the only line that holds
    the text [getSelfAwarenessStatus()]: the count is seeded at 1 at [decl],
    whose own braces are not counted, and the end line is the first later
    line at which the count is zero, the count being positive on the lines
    in between; an end line found this way is the end line of the scan
    described in the specification.  Multi-method variant: the count starts at 0 and takes in
    the braces of every line from the first one on; the end line is the
    first line at which the count is zero and that holds a closing brace,
    and only an end line of index above 0 counts.  In both, the end offset
    is the start offset plus the length of the lines up to the end line: the
    end of that line. *)
Theorem C4_method_end_scan :
  (forall pre decl post n,
     (forall l, In l pre -> Py.contains fix_all_class_methods.name l = false) ->
     Py.contains fix_all_class_methods.name decl = true ->
     (forall l, In l post -> Py.contains fix_all_class_methods.name l = false) ->
     fix_all_class_methods.find_method_end (pre ++ decl :: post) 0 0
     = length pre + 1 + n <->
     n < length post /\
     (1 + balance (firstn (S n) post) = 0)%Z /\
     (forall m, m <= n -> (0 < 1 + balance (firstn m post))%Z)) /\
  (forall pre decl post j,
     (forall l, In l pre -> Py.contains fix_all_class_methods.name l = false) ->
     Py.contains fix_all_class_methods.name decl = true ->
     (forall l, In l post -> Py.contains fix_all_class_methods.name l = false) ->
     fix_all_class_methods.find_method_end (pre ++ decl :: post) 0 0 = j ->
     j <> 0 ->
     spec_method_end_line (pre ++ decl :: post) (length pre) = Some j) /\
  (forall lines j,
     0 < j ->
     fix_class_methods.find_method_end lines 0 0 = j <->
     j < length lines /\
     balance (firstn (S j) lines) = 0%Z /\
     Py.has "}" (nth j lines []) = true /\
     (forall m, m < j ->
        ~ (balance (firstn (S m) lines) = 0%Z /\
           Py.has "}" (nth m lines []) = true))) /\
  (forall content start j,
     j < length (Py.split_nl (Py.from content start)) ->
     let method_text :=
       Py.join_nl (firstn (j + 1) (Py.split_nl (Py.from content start))) in
     let method_full_end := start + length method_text in
     Py.slice content start method_full_end = method_text /\
     (Py.from content method_full_end = [] \/
      exists rest, Py.from content method_full_end = nl :: rest)).
Proof.
  split; [|split; [|split]].
  - intros pre decl post n Hpre Hd Hpost.
    rewrite fix_all_class_methods_find_skip_seed; auto.
    replace (length pre + 1 + n) with (S (length pre) + n) by lia.
    apply find_after_seed; auto; lia.
  - intros pre decl post j Hpre Hd Hpost E Hj.
    rewrite fix_all_class_methods_find_skip_seed in E by assumption.
    unfold spec_method_end_line.
    replace (skipn (S (length pre)) (pre ++ decl :: post)) with post.
    + apply find_agrees_with_description; auto; lia.
    + rewrite skipn_app, skipn_all2 by lia.
      replace (S (length pre) - length pre) with 1 by lia. reflexivity.
  - intros lines j Hj.
    pose proof (find_multi_iff lines 0 0%Z j Hj) as H. simpl in H. exact H.
  - apply end_offset_is_end_of_line.
Qed.

Lemma C4_method_end_scan_witness :
  fix_all_class_methods.find_method_end
    (map Py.lit [ "}"; "export default Foo;"; "";
                  "getSelfAwarenessStatus() {"; "  return 1;"; "}"; "" ]%string)
    0 0 = 5 /\
  spec_method_end_line
    (map Py.lit [ "}"; "export default Foo;"; "";
                  "getSelfAwarenessStatus() {"; "  return 1;"; "}"; "" ]%string)
    3 = Some 5 /\
  fix_class_methods.find_method_end
    (map Py.lit [ "  healthCheck() {"; "    return 1;"; "  }"; "" ]%string)
    0 0 = 2 /\
  Py.slice scenario_A 22 85
  = text [ "}"; "export default Foo;"; "";
           "getSelfAwarenessStatus() {"; "  return 1;"; "}" ]%string.
Proof.
  destruct C4_method_end_scan as (H1 & Hs & H2 & H3).
  split; [|split; [|split]].
  - apply (H1 (map Py.lit ["}"; "export default Foo;"; ""]%string)
              (Py.lit "getSelfAwarenessStatus() {")
              (map Py.lit ["  return 1;"; "}"; ""]%string) 1).
    + intros l [<-|[<-|[<-|[]]]]; reflexivity.
    + reflexivity.
    + intros l [<-|[<-|[<-|[]]]]; reflexivity.
    + split; [|split].
      * simpl. lia.
      * reflexivity.
      * intros [|[|m]] Hm; [reflexivity|reflexivity|lia].
  - apply (Hs (map Py.lit ["}"; "export default Foo;"; ""]%string)
              (Py.lit "getSelfAwarenessStatus() {")
              (map Py.lit ["  return 1;"; "}"; ""]%string) 5).
    + intros l [<-|[<-|[<-|[]]]]; reflexivity.
    + reflexivity.
    + intros l [<-|[<-|[<-|[]]]]; reflexivity.
    + reflexivity.
    + discriminate.
  - apply (H2 (map Py.lit [ "  healthCheck() {"; "    return 1;"; "  }"; "" ]%string) 2).
    + lia.
    + split; [|split; [|split]].
      * simpl. lia.
      * reflexivity.
      * reflexivity.
      * intros [|[|m]] Hm [Hb Hh]; [discriminate Hb|discriminate Hb|lia].
  - destruct (H3 scenario_A 22 5) as [H _].
    + vm_compute. lia.
    + exact H.
Defined.

(** C5.  In the single-method variant [method_start] is [match.start()]:
    on Scenario A it is 22, the offset of the class's closing brace, while
    the first character of the method's name is at offset 45; the text from
    22 on, not from 45 on, is what the script cuts out. *)
Theorem C5_method_start_is_the_match_start :
  Re.search fix_all_class_methods.pattern scenario_A
  = Some (MatchObj 22 71 [(1, (22, 22))]) /\
  nth_error scenario_A 22 = Some "}"%char /\
  Py.starts_with fix_all_class_methods.name (Py.from scenario_A 45) = true /\
  Py.contains fix_all_class_methods.name (Py.upto scenario_A 68) = false /\
  file_after scenario_A (fix_all_class_methods.fix_file scenario_A)
  = Py.upto scenario_A 22
    ++ [nl]
    ++ text [ "    getSelfAwarenessStatus() {"; "      return 1;"; "    }" ]%string
    ++ [nl]
    ++ Py.from scenario_A 85.
Proof. vm_compute. repeat split; reflexivity. Qed.

(** C6.  Scenario D, multi-method variant.  The two matches are visited
    last first, but the first visit inserts text before the offsets of the
    other match.  The second visit then moves the method that was just
    inserted, a second time; [healthCheck] stays after the class.  With the
    class of Scenario A the first visit inserts after the class's closing
    brace and the second finds no class end: neither method ends up in the
    class. *)
Theorem C6_scenario_D_methods_not_relocated_in_order :
  fix_class_methods.fix_file scenario_D
  = Outcome [Fixing; FixedMethod; FixedMethod]
      (Some (text [ "class Foo {";
                    "  bar() {";
                    "  }";
                    "";
                    "          getSelfAwarenessStatus() {";
                    "            return 2;";
                    "          }";
                    "}";
                    "";
                    "";
                    "";
                    "  healthCheck() {";
                    "    return 1;";
                    "  }";
                    "";
                    "";
                    "" ]%string))
      true /\
  fix_class_methods.fix_file scenario_D_compact
  = Outcome [Fixing; FixedMethod; CouldNotFindClassEnd]
      (Some (text [ "class Foo {";
                    "  bar(){}";
                    "}";
                    "";
                    "      getSelfAwarenessStatus() {";
                    "        return 2;";
                    "      }";
                    "";
                    "  healthCheck() {";
                    "    return 1;";
                    "  }";
                    "";
                    "";
                    "" ]%string))
      true.
Proof. vm_compute. split; reflexivity. Qed.

(** C7.  A second run changes the file again.  The first run of the
    multi-method variant moves [healthCheck] into the class, after a line
    break of its own; the closing brace of [bar], the empty line and the
    moved method then match the detector's pattern, and the second run
    moves the method once more, between [a] and [bar]. *)
Theorem C7_second_run_changes_the_file :
  let first := text [ "class Foo {";
                      "  a() {";
                      "  }";
                      "  bar() {";
                      "  }";
                      "";
                      "      healthCheck() {";
                      "        return 1;";
                      "      }";
                      "}";
                      "";
                      "";
                      "" ]%string in
  let second := text [ "class Foo {";
                       "  a() {";
                       "  }";
                       "          healthCheck() {";
                       "            return 1;";
                       "          }";
                       "";
                       "  bar() {";
                       "  }";
                       "";
                       "";
                       "}";
                       "";
                       "";
                       "" ]%string in
  fix_class_methods.fix_file one_misplaced_method
  = Outcome [Fixing; FixedMethod] (Some first) true /\
  Re.search fix_class_methods.pattern first <> None /\
  fix_class_methods.fix_file first
  = Outcome [Fixing; FixedMethod] (Some second) true /\
  second <> first.
Proof.
  vm_compute. repeat split; try reflexivity; intros H; discriminate H.
Qed.





(** C10, as stated, fails.  Multi-method variant: after a line that holds
    one space the one-line method is not on line 0 of the scanned lines, the
    end line is line 1 and the method is moved.  Single-method variant: the
    declaration line is skipped, but a closing brace on the next line brings
    the count from 1 to zero, and the method is moved together with that
    line. *)
Lemma C10_one_line_methods_are_relocated :
  fix_class_methods.fix_file one_line_after_blank
  = Outcome [Fixing; FixedMethod]
      (Some (text [ "class A {";
                    "  b() {";
                    "  }";
                    "";
                    " ";
                    "      healthCheck() {}";
                    "}";
                    "";
                    "";
                    "" ]%string))
      true /\
  fix_all_class_methods.fix_file one_line_export_brace
  = Outcome [Checking; FoundIssue; FixedFile]
      (Some (text [ "class Foo {";
                    "  bar(){}";
                    "";
                    "    getSelfAwarenessStatus() { return 1; }";
                    "    }";
                    "";
                    "" ]%string))
      true.
Proof. vm_compute. split; reflexivity. Qed.

(** C10, amended.  Multi-method variant: when the first of the scanned
    lines has as many opening as closing braces and holds a closing brace,
    the match is skipped with "could not find method end".  Single-method
    variant: the braces of a line that holds the method name are never
    counted, and when the declaration line is the only line with the name
    and the count, seeded at 1, stays positive on all later lines,
    [fix_file] reports "could not find method end" and writes nothing. *)
Theorem C10_one_line_method_stays_outside :
  (forall working mt line rest,
     Py.split_nl (Py.from working (fix_class_methods.start2 mt)) = line :: rest ->
     braces line = 0%Z ->
     Py.has "}" line = true ->
     fix_class_methods.process_match working mt
     = (working, [CouldNotFindMethodEnd])) /\
  (forall pre decl decl' post i c,
     Py.contains fix_all_class_methods.name decl = true ->
     Py.contains fix_all_class_methods.name decl' = true ->
     fix_all_class_methods.find_method_end (pre ++ decl :: post) i c
     = fix_all_class_methods.find_method_end (pre ++ decl' :: post) i c) /\
  (forall content mt pre decl post,
     Re.search fix_all_class_methods.pattern content = Some mt ->
     Py.split_nl (Py.from content (m_start mt)) = pre ++ decl :: post ->
     (forall l, In l pre -> Py.contains fix_all_class_methods.name l = false) ->
     Py.contains fix_all_class_methods.name decl = true ->
     (forall l, In l post -> Py.contains fix_all_class_methods.name l = false) ->
     (forall m, m <= length post -> (0 < 1 + balance (firstn m post))%Z) ->
     fix_all_class_methods.fix_file content
     = Outcome [Checking; FoundIssue; CouldNotFindMethodEnd] None false).
Proof.
  split; [|split].
  - intros working mt line rest E Hb Hh. apply multi_skip. rewrite E.
    simpl. rewrite Hb, Hh. reflexivity.
  - intros pre. induction pre as [|l pre IH]; intros decl decl' post i c Hd Hd'.
    + simpl. now rewrite Hd, Hd'.
    + simpl. destruct (Py.contains fix_all_class_methods.name l); [now apply IH|].
      destruct (0 <? c)%Z; [|now apply IH].
      destruct (c + braces l =? 0)%Z; [reflexivity|now apply IH].
  - intros content mt pre decl post Hs E Hpre Hd Hpost Hpos.
    apply (single_no_method_end content mt Hs). rewrite E.
    rewrite fix_all_class_methods_find_skip_seed by assumption.
    destruct (find_range post (S (length pre)) 1%Z) as [H|H]; [exact H|].
    exfalso.
    remember (fix_all_class_methods.find_method_end post (S (length pre)) 1)
      as r eqn:Er.
    symmetry in Er.
    replace r with (S (length pre) + (r - S (length pre))) in Er by lia.
    apply find_after_seed in Er; auto; try lia.
    destruct Er as (L & B & _).
    specialize (Hpos (S (r - S (length pre)))). lia.
Qed.

Lemma C10_one_line_method_stays_outside_witness :
  fix_class_methods.process_match one_line_then_brace
    (MatchObj 26 46 [(3, (31, 42)); (2, (29, 31)); (1, (26, 26))])
  = (one_line_then_brace, [CouldNotFindMethodEnd]) /\
  fix_all_class_methods.find_method_end
    (map Py.lit [ ""; "getSelfAwarenessStatus() { return 1; }"; "}" ]%string) 0 0
  = fix_all_class_methods.find_method_end
    (map Py.lit [ ""; "getSelfAwarenessStatus() {"; "}" ]%string) 0 0 /\
  fix_all_class_methods.fix_file one_line_export
  = Outcome [Checking; FoundIssue; CouldNotFindMethodEnd] None false.
Proof.
  destruct C10_one_line_method_stays_outside as (H1 & H2 & H3).
  split; [|split].
  - apply (H1 one_line_then_brace _
              (Py.lit "  healthCheck() { return 1; }")
              (map Py.lit ["}"; ""]%string)); reflexivity.
  - apply (H2 [Py.lit ""]); reflexivity.
  - apply (H3 one_line_export (MatchObj 22 71 [(1, (22, 22))])
              (map Py.lit ["}"; "export default Foo;"; ""]%string)
              (Py.lit "getSelfAwarenessStatus() { return 1; }")
              [Py.lit ""]).
    + reflexivity.
    + reflexivity.
    + intros l [<-|[<-|[<-|[]]]]; reflexivity.
    + reflexivity.
    + intros l [<-|[]]; reflexivity.
    + intros [|[|m]] Hm; [reflexivity|reflexivity|simpl in Hm; lia].
Defined.

(** * Further facts: what the scripts keep and what they lose *)

Module CountFacts.

Import PyFacts.

Lemma count_cons_other (c d : ascii) (s : str) :
  c <> d -> Py.count c (d :: s) = Py.count c s.
Proof.
  intros H. unfold Py.count. simpl.
  destruct (Ascii.eqb_spec c d); [contradiction|reflexivity].
Qed.

Lemma count_cons_same (c : ascii) (s : str) :
  Py.count c (c :: s) = S (Py.count c s).
Proof. unfold Py.count. simpl. now rewrite Ascii.eqb_refl. Qed.

Lemma count_join (c : ascii) (ls : list str) :
  c <> nl -> Py.count c (Py.join_nl ls) = list_sum (map (Py.count c) ls).
Proof.
  intros Hc. induction ls as [|l ls IH]; [reflexivity|].
  destruct ls as [|l' ls].
  - simpl. lia.
  - rewrite join_nl_cons by discriminate.
    rewrite count_app, count_cons_other, IH by assumption. reflexivity.
Qed.

Lemma count_indent_line (c : ascii) (l : str) :
  c <> " "%char -> Py.count c (indent_line l) = Py.count c l.
Proof.
  intros Hc. unfold indent_line. destruct (Py.truthy (Py.strip l)); [|reflexivity].
  change (Py.lit "    " ++ l)
    with (" "%char :: " "%char :: " "%char :: " "%char :: l).
  now rewrite !count_cons_other by assumption.
Qed.

Lemma count_join_indent (c : ascii) (ls : list str) :
  c <> " "%char -> c <> nl ->
  Py.count c (Py.join_nl (map indent_line ls)) = Py.count c (Py.join_nl ls).
Proof.
  intros Hs Hn. rewrite !count_join by assumption. f_equal.
  rewrite map_map. apply map_ext. intros l. now apply count_indent_line.
Qed.

Lemma length_indent_line (l : str) : length l <= length (indent_line l).
Proof.
  unfold indent_line. destruct (Py.truthy (Py.strip l)); [|lia].
  rewrite length_app. lia.
Qed.

Lemma length_join_indent (ls : list str) :
  length (Py.join_nl ls) <= length (Py.join_nl (map indent_line ls)).
Proof.
  induction ls as [|l ls IH]; [simpl; lia|].
  destruct ls as [|l' ls].
  - simpl. apply length_indent_line.
  - change (map indent_line (l :: l' :: ls))
      with (indent_line l :: map indent_line (l' :: ls)).
    rewrite (join_nl_cons l) by discriminate.
    rewrite (join_nl_cons (indent_line l)) by discriminate.
    rewrite !length_app, !length_cons.
    pose proof (length_indent_line l). lia.
Qed.

End CountFacts.

Module MultiFacts.

Import PyFacts ReFacts PatternFacts ScanFacts FixFacts CountFacts.

(** One visit either leaves the working copy as it is, or cuts a block of
    lines out of it and puts the same lines, indented, between two line
    breaks at an earlier place. *)
Lemma process_match_shape (working : str) (mt : match_obj) :
  m_start mt <= fix_class_methods.start2 mt ->
  (exists msg,
     fix_class_methods.process_match working mt = (working, [msg]) /\
     msg <> FixedMethod) \/
  (exists cm before between method_lines after,
     Re.search fix_class_methods.class_end_pattern
       (rev (Py.upto working (m_start mt))) = Some cm /\
     before = Py.upto working (m_start mt - m_start cm) /\
     working = before ++ between ++ Py.join_nl method_lines ++ after /\
     fix_class_methods.process_match working mt
     = (before ++ [nl] ++ Py.join_nl (map indent_line method_lines) ++ [nl]
        ++ between ++ after, [FixedMethod])).
Proof.
  intros Hle. unfold fix_class_methods.process_match.
  set (msp := fix_class_methods.start2 mt) in *.
  set (lines := Py.split_nl (Py.from working msp)).
  set (j := fix_class_methods.find_method_end lines 0 0).
  destruct (Nat.eqb_spec j 0) as [|Hj].
  { left. exists CouldNotFindMethodEnd. split; [reflexivity|discriminate]. }
  destruct (Re.search fix_class_methods.class_end_pattern
              (rev (Py.upto working (m_start mt)))) as [cm|] eqn:Ecm.
  2:{ left. exists CouldNotFindClassEnd. split; [reflexivity|discriminate]. }
  right.
  set (ip := m_start mt - m_start cm).
  set (mlines := firstn (j + 1) lines).
  assert (Hjl : j < length lines).
  { destruct (find_range_multi lines 0 0%Z) as [H|H]; fold j in H; lia. }
  destruct (join_firstn_split (Py.from working msp) j Hjl) as (P1 & _ & _).
  fold lines in P1. fold mlines in P1.
  exists cm, (Py.upto working ip), (Py.slice working ip msp), mlines,
    (Py.from working (msp + length (Py.join_nl mlines))).
  repeat split.
  unfold Py.upto, Py.from in *.
  rewrite <- (firstn_skipn ip working) at 1. f_equal.
  rewrite (skipn_slice working ip msp) by (unfold ip; lia). f_equal.
  rewrite <- (firstn_skipn (length (Py.join_nl mlines)) (skipn msp working))
    at 1.
  rewrite P1, skipn_skipn_add. f_equal. f_equal. lia.
Qed.

Lemma process_match_count (working : str) (mt : match_obj) (c : ascii) :
  m_start mt <= fix_class_methods.start2 mt ->
  c <> " "%char -> c <> nl ->
  Py.count c (fst (fix_class_methods.process_match working mt))
  = Py.count c working.
Proof.
  intros Hle Hs Hn.
  destruct (process_match_shape working mt Hle)
    as [(msg & -> & _)|(cm & A & B & ml & D & _ & _ & Hw & ->)];
    [reflexivity|].
  cbn [fst]. rewrite Hw.
  rewrite !count_app, count_join_indent by assumption.
  rewrite (count_cons_other c nl []) by assumption.
  unfold Py.count at 2. simpl. lia.
Qed.

Lemma process_match_length (working : str) (mt : match_obj) :
  m_start mt <= fix_class_methods.start2 mt ->
  let r := fix_class_methods.process_match working mt in
  (snd r = [FixedMethod] /\ length working + 2 <= length (fst r)) \/
  (exists msg, snd r = [msg] /\ msg <> FixedMethod /\ fst r = working).
Proof.
  intros Hle.
  destruct (process_match_shape working mt Hle)
    as [(msg & E & Hm)|(cm & A & B & ml & D & _ & _ & Hw & E)];
    cbv zeta; rewrite E; cbn [fst snd].
  - right. exists msg. now repeat split.
  - left. split; [reflexivity|]. rewrite Hw.
    rewrite !length_app. pose proof (length_join_indent ml). simpl length. lia.
Qed.

Lemma process_matches_count (visited : list match_obj) (c : ascii) :
  forall working,
  (forall mt, In mt visited -> m_start mt <= fix_class_methods.start2 mt) ->
  c <> " "%char -> c <> nl ->
  Py.count c (fst (fix_class_methods.process_matches working visited))
  = Py.count c working.
Proof.
  induction visited as [|mt rest IH]; intros working H Hs Hn; simpl;
    [reflexivity|].
  pose proof (process_match_count working mt c (H mt (or_introl eq_refl)) Hs Hn)
    as H1.
  destruct (fix_class_methods.process_match working mt) as [w1 msgs1].
  specialize (IH w1 (fun m Hm => H m (or_intror Hm)) Hs Hn).
  destruct (fix_class_methods.process_matches w1 rest) as [w2 msgs2].
  simpl in *. congruence.
Qed.

Lemma process_matches_length (visited : list match_obj) :
  forall working,
  (forall mt, In mt visited -> m_start mt <= fix_class_methods.start2 mt) ->
  let r := fix_class_methods.process_matches working visited in
  length working <= length (fst r) /\
  (In FixedMethod (snd r) -> length working < length (fst r)) /\
  (~ In FixedMethod (snd r) -> fst r = working).
Proof.
  induction visited as [|mt rest IH]; intros working H; simpl.
  - repeat split; auto. intros [].
  - pose proof (process_match_length working mt (H mt (or_introl eq_refl)))
      as H1.
    destruct (fix_class_methods.process_match working mt) as [w1 msgs1].
    specialize (IH w1 (fun m Hm => H m (or_intror Hm))).
    destruct (fix_class_methods.process_matches w1 rest) as [w2 msgs2].
    cbn [fst snd] in *. destruct IH as (I1 & I2 & I3).
    destruct H1 as [(-> & L)|(msg & -> & Hm & ->)].
    + repeat split; try lia.
      intros Hn. exfalso. apply Hn. now left.
    + repeat split; auto.
      * intros [Heq|Hin]; [congruence|auto].
      * intros Hn. apply I3. intros Hin. apply Hn. now right.
Qed.

Lemma finditer_starts (content : str) (mt : match_obj) :
  In mt (Re.finditer fix_class_methods.pattern content) ->
  m_start mt <= fix_class_methods.start2 mt.
Proof.
  intros Hin. apply finditer_in in Hin.
  destruct (match_group2 content (m_start mt) mt Hin) as [_ H3]. lia.
Qed.


End MultiFacts.

Module SingleFacts.

Import PyFacts ReFacts PatternFacts ScanFacts FixFacts CountFacts.
Import fix_all_class_methods.

(** Once the name has been seen the second loop takes every line up to the
    end line. *)
Lemma collect_found post : forall i mel,
  i <= mel ->
  collect_method_lines post i true mel = firstn (mel - i + 1) post.
Proof.
  induction post as [|l rest IH]; intros i mel Hle; simpl.
  - now rewrite firstn_nil.
  - destruct (Nat.eqb_spec i mel) as [->|Hne].
    + rewrite Nat.sub_diag. simpl. reflexivity.
    + rewrite IH by lia.
      replace (mel - i + 1) with (S (mel - S i + 1)) by lia. reflexivity.
Qed.

Lemma prefix_before_first_name (L1 : list str) :
  forall L2 pre decl post,
  L1 ++ L2 = pre ++ decl :: post ->
  (forall l, In l L1 -> Py.contains name l = false) ->
  Py.contains name decl = true ->
  exists pre', pre = L1 ++ pre'.
Proof.
  induction L1 as [|a L1 IH]; intros L2 pre decl post E H1 Hd.
  - now exists pre.
  - destruct pre as [|b pre]; simpl in E; inversion E; subst.
    + rewrite (H1 decl) in Hd by now left. discriminate.
    + destruct (IH L2 pre decl post H2) as (pre' & ->); auto.
      * intros l Hl. apply H1. now right.
      * now exists pre'.
Qed.

(** The closing brace at the start of a match lies on one of the lines
    before the first line that holds the method name. *)
Lemma match_brace_before_name (s : str) i mt pre decl post :
  match_at pattern s i = Some mt ->
  Py.split_nl (Py.from s i) = pre ++ decl :: post ->
  (forall l, In l pre -> Py.contains name l = false) ->
  Py.contains name decl = true ->
  1 <= Py.count "}" (Py.join_nl pre).
Proof.
  unfold match_at.
  change (rmatch s pattern i [] (fun j g => Some (MatchObj i j g)))
    with (rmatch s brace_line i []
            (fun j1 g1 =>
               rmatch s (export_default ;; export_rest ;; doc_comment ;;
                         method_head) j1 g1
                 (fun j g => Some (MatchObj i j g)))).
  intros H E Hpre Hd. apply brace_line_sound in H.
  destruct H as (j1 & g1 & u & v & Hj1 & E1 & Hu & Hv & _).
  assert (Hfirst : Py.from s i = (u ++ "}"%char :: v) ++ nl :: skipn j1 s).
  { unfold Py.from. rewrite (skipn_slice s i j1) by lia. rewrite E1.
    rewrite <- !app_assoc. simpl. now rewrite <- app_assoc. }
  rewrite Hfirst, split_nl_app in E.
  destruct (prefix_before_first_name _ _ _ _ _ E) as (pre' & ->); auto.
  - intros l Hl.
    destruct (Py.contains name l) eqn:Hc; [|reflexivity].
    apply contains_head in Hc.
    apply (split_nl_chars (u ++ "}"%char :: v) l _ Hl) in Hc.
    apply in_app_or in Hc. rewrite Forall_forall in Hu, Hv.
    destruct Hc as [Hc|[Hc|Hc]].
    + apply Hu in Hc. vm_compute in Hc. discriminate.
    + discriminate.
    + apply Hv in Hc. vm_compute in Hc. discriminate.
  - rewrite count_join by discriminate.
    rewrite map_app, list_sum_app, <- count_join by discriminate.
    rewrite join_split, count_app, count_cons_same. lia.
Qed.

(** What a write of the single-method variant is made of: the text read
    is [before ++ between ++ dropped lines ++ line break ++ moved lines
    ++ swallowed ++ after]; the text written has the moved lines, indented,
    after [before], and neither the dropped lines nor the swallowed text. *)
Lemma write_shape (content new_content : str) :
  written (fix_file content) = Some new_content ->
  exists before between pre method_lines swallowed after,
    content = before ++ between ++ Py.join_nl pre ++ nl
              :: Py.join_nl method_lines ++ swallowed ++ after /\
    new_content = before ++ [nl] ++ Py.join_nl (map indent_line method_lines)
                  ++ [nl] ++ between ++ after /\
    1 <= Py.count "}" (Py.join_nl pre) /\
    (forall l, In l pre -> Py.contains name l = false) /\
    (exists decl tl, method_lines = decl :: tl /\ Py.contains name decl = true).
Proof.
  unfold fix_file.
  destruct (Re.search pattern content) as [mt|] eqn:Hs; [|discriminate].
  destruct (class_end_found content mt Hs) as (cm & -> & Hle).
  set (ms := m_start mt) in *. set (cep := m_start cm) in *.
  set (lines := Py.split_nl (Py.from content ms)).
  set (mel := find_method_end lines 0 0).
  destruct (Nat.eqb_spec mel 0) as [|Hmel]; [discriminate|].
  cbn [written]. intros H. injection H as Hnew.
  unfold Re.search in Hs. apply search_from_some in Hs. destruct Hs as [_ Hm].
  fold ms in Hm.
  destruct (match_lines content ms mt Hm)
    as (pre & decl & post & E & Hne & Hpre & Hd).
  fold lines in E.
  pose proof (match_brace_before_name content ms mt pre decl post Hm E Hpre Hd)
    as Hbrace.
  assert (Hrange : S (length pre) <= mel < S (length pre) + length post).
  { unfold mel. rewrite E.
    rewrite fix_all_class_methods_find_skip_seed by assumption.
    destruct (find_range post (S (length pre)) 1%Z) as [R|R]; [|exact R].
    exfalso. apply Hmel. unfold mel. rewrite E.
    now rewrite fix_all_class_methods_find_skip_seed by assumption. }
  set (mlines := decl :: firstn (mel - length pre) post).
  assert (Hcollect : collect_method_lines lines 0 false mel = mlines).
  { rewrite E, collect_skip by assumption. simpl. rewrite Hd. simpl.
    destruct (Nat.eqb_spec (length pre) mel) as [Heq|_]; [lia|].
    rewrite collect_found by lia. unfold mlines. do 2 f_equal. lia. }
  assert (Hfirstn : firstn (mel + 1) lines = pre ++ mlines).
  { rewrite E, firstn_app, firstn_all2 by lia. f_equal.
    replace (mel + 1 - length pre) with (S (mel - length pre)) by lia.
    reflexivity. }
  assert (Hmell : mel < length lines).
  { rewrite E, length_app. simpl. lia. }
  destruct (join_firstn_split (Py.from content ms) mel Hmell) as (P1 & _ & _).
  fold lines in P1. rewrite Hfirstn in P1.
  rewrite Hcollect, Hfirstn in Hnew.
  remember (Py.join_nl (pre ++ mlines)) as M eqn:EM.
  assert (Hex : exists e,
            ms + length M <= e /\
            new_content
            = Py.upto content cep ++ [nl]
              ++ Py.join_nl (map indent_line mlines) ++ [nl]
              ++ Py.slice content cep ms ++ Py.from content e).
  { revert Hnew.
    destruct (Re.search export_pattern (Py.from content (ms + length M)))
      as [em|]; intros <-; eexists; (split; [|reflexivity]).
    - apply Nat.le_add_r.
    - apply Nat.le_refl. }
  clear Hnew. destruct Hex as (e & He & ->).
  exists (Py.upto content cep), (Py.slice content cep ms), pre, mlines,
    (Py.slice content (ms + length M) e), (Py.from content e).
  split; [|split; [reflexivity|split; [exact Hbrace|split; [exact Hpre|]]]].
  - unfold Py.upto, Py.from in *.
    rewrite <- (firstn_skipn cep content) at 1. f_equal.
    rewrite (skipn_slice content cep ms) by exact Hle. f_equal.
    rewrite <- (firstn_skipn (length M) (skipn ms content)) at 1.
    rewrite P1, skipn_skipn_add.
    replace (length M + ms) with (ms + length M) by apply Nat.add_comm.
    rewrite (skipn_slice content (ms + length M) e) by exact He.
    rewrite EM at 1. rewrite join_nl_app by (auto; discriminate).
    rewrite <- !app_assoc. reflexivity.
  - now exists decl, (firstn (mel - length pre) post).
Qed.

End SingleFacts.

Module MainFacts.

Import PyFacts ReFacts PatternFacts ScanFacts FixFacts CountFacts MultiFacts.

Lemma str_eqb_eq (a b : str) : str_eqb a b = true <-> a = b.
Proof.
  unfold str_eqb. destruct (list_eq_dec ascii_dec a b); split; congruence.
Qed.

Lemma write_text_same (fs : files) (p : str) (c : str) :
  write_text fs p c p = Some (Text c true).
Proof.
  unfold write_text. destruct (str_eqb p p) eqn:E; [reflexivity|].
  assert (str_eqb p p = true) by now apply str_eqb_eq. congruence.
Qed.

Lemma write_text_other (fs : files) (p q : str) (c : str) :
  q <> p -> write_text fs p c q = fs q.
Proof.
  intros H. unfold write_text. destruct (str_eqb q p) eqn:E; [|reflexivity].
  apply str_eqb_eq in E. contradiction.
Qed.

Lemma starts_with_app_r (p s t : str) :
  Py.starts_with p s = true -> Py.starts_with p (s ++ t) = true.
Proof.
  revert s. induction p as [|a p IH]; intros s; [now destruct s|].
  destruct s as [|b s]; simpl; [discriminate|].
  intros H. apply andb_true_iff in H. destruct H as [H1 H2].
  now rewrite H1, IH.
Qed.

Lemma endswith_app (suffix a b : str) :
  endswith suffix b = true -> endswith suffix (a ++ b) = true.
Proof.
  unfold endswith. intros H. rewrite rev_app_distr. now apply starts_with_app_r.
Qed.

(** A joined path ends the way its last component ends. *)
Lemma endswith_path_join (suffix a b : str) :
  endswith suffix b = true -> endswith suffix (path_join a b) = true.
Proof.
  intros H. unfold path_join.
  destruct (Py.starts_with (Py.lit "/") b); [exact H|].
  destruct (negb (Py.truthy a) || endswith (Py.lit "/") a).
  - now apply endswith_app.
  - apply endswith_app. now apply endswith_app.
Qed.

(** *** The single-method script *)

Lemma single_outcome (content : str) :
  let o := fix_all_class_methods.fix_file content in
  (written o = None /\ returned o = false /\ ~ In FixedFile (printed o)) \/
  (exists new_content,
     written o = Some new_content /\ returned o = true /\
     printed o = [Checking; FoundIssue; FixedFile] /\
     Re.search fix_all_class_methods.pattern content <> None).
Proof.
  unfold fix_all_class_methods.fix_file.
  destruct (Re.search fix_all_class_methods.pattern content) as [mt|].
  - destruct (Re.search fix_all_class_methods.class_end_pattern content)
      as [cm|].
    + destruct (fix_all_class_methods.find_method_end _ 0 0 =? 0).
      * left. cbn. repeat split; auto.
        intros [H|[H|[H|[]]]]; discriminate.
      * right. eexists. cbn. repeat split. discriminate.
    + left. cbn. repeat split; auto. intros [H|[H|[H|[]]]]; discriminate.
  - left. cbn. repeat split; auto. intros [H|[H|[]]]; discriminate.
Qed.

Lemma fixed_lines_app (a b : list line) :
  fixed_lines (a ++ b) = fixed_lines a + fixed_lines b.
Proof. unfold fixed_lines. now rewrite filter_app, length_app. Qed.

Lemma fixed_lines_none (p : str) (msgs : list message) :
  ~ In FixedFile msgs -> fixed_lines (map (Said p) msgs) = 0.
Proof.
  induction msgs as [|m msgs IH]; intros H; [reflexivity|].
  unfold fixed_lines in *. simpl.
  destruct m; simpl; try (apply IH; intros Hin; apply H; now right).
  exfalso. apply H. now left.
Qed.

(** One call on a path: the store is unchanged and the call returns
    [False], or the path held a writable text in which the detector
    matches, that text was replaced and the call returns [True]. *)
Lemma single_fix_file_step (fs : files) (p : str) :
  let '(fs1, out, fixed) := fix_all_class_methods_py.fix_file fs p in
  fixed_lines out = (if fixed then 1 else 0) /\
  ((fs1 = fs /\ fixed = false) \/
   (fixed = true /\
    exists content new_content,
      fs p = Some (Text content true) /\
      Re.search fix_all_class_methods.pattern content <> None /\
      written (fix_all_class_methods.fix_file content) = Some new_content /\
      fs1 = write_text fs p new_content)).
Proof.
  unfold fix_all_class_methods_py.fix_file, read_text, can_write.
  destruct (fs p) as [[content w|]|] eqn:Efs.
  - destruct (single_outcome content)
      as [(Hw & Hr & Hn)|(new_content & Hw & Hr & Hp & Hs)];
      cbv zeta in *; rewrite Hw.
    + rewrite Hr. split; [now apply fixed_lines_none|]. now left.
    + destruct w.
      * rewrite Hp. split; [reflexivity|]. right. split; [reflexivity|].
        exists content, new_content. repeat split; assumption.
      * rewrite Hp. split; [reflexivity|]. now left.
  - split; [reflexivity|]. now left.
  - split; [reflexivity|]. now left.
Qed.

Lemma single_fix_each (paths : list str) :
  forall fs n0,
  let '(fs', out, n) := fix_all_class_methods_py.fix_each fs paths n0 in
  n = n0 + fixed_lines out /\
  n <= n0 + length paths /\
  forall p,
    fs' p = fs p \/
    (In p paths /\
     exists content content',
       fs p = Some (Text content true) /\
       Re.search fix_all_class_methods.pattern content <> None /\
       fs' p = Some (Text content' true)).
Proof.
  induction paths as [|q rest IH]; intros fs n0; simpl.
  - split; [unfold fixed_lines; simpl; lia|]. split; [lia|]. intros p. now left.
  - pose proof (single_fix_file_step fs q) as Hstep.
    destruct (fix_all_class_methods_py.fix_file fs q) as [[fs1 out] fixed].
    destruct Hstep as [Hcount Hstep].
    specialize (IH fs1 (if fixed then n0 + 1 else n0)).
    destruct (fix_all_class_methods_py.fix_each fs1 rest _) as [[fs2 out'] n].
    destruct IH as (I1 & I2 & I3).
    rewrite fixed_lines_app, Hcount.
    split; [destruct fixed; lia|]. split; [destruct fixed; lia|].
    intros p. destruct Hstep as [[-> _]|(_ & c & new & Hfs & Hs & Hw & ->)].
    + destruct (I3 p) as [H|(Hin & c & c' & H1 & H2 & H3)]; [now left|].
      right. split; [now right|]. now exists c, c'.
    + destruct (list_eq_dec ascii_dec p q) as [->|Hne].
      * right. split; [now left|]. exists c.
        destruct (I3 q) as [H|(_ & c1 & c' & H1 & H2 & H3)].
        -- rewrite write_text_same in H. now exists new.
        -- now exists c'.
      * destruct (I3 p) as [H|(Hin & c1 & c' & H1 & H2 & H3)].
        -- left. now rewrite write_text_other in H.
        -- rewrite write_text_other in H1 by assumption.
           right. split; [now right|]. now exists c1, c'.
Qed.

(** *** The multi-method script *)

Lemma multi_fix_file_count (content : str) (c : ascii) :
  c <> " "%char -> c <> nl ->
  Py.count c (file_after content (fix_class_methods.fix_file content))
  = Py.count c content.
Proof.
  intros Hs Hn. unfold fix_class_methods.fix_file.
  destruct (Re.finditer fix_class_methods.pattern content) as [|m ms] eqn:E;
    [reflexivity|].
  pose proof (process_matches_count (rev (m :: ms)) c content) as H.
  destruct (fix_class_methods.process_matches content (rev (m :: ms)))
    as [w msgs].
  unfold file_after. cbn [written fst] in *. apply H; auto.
  intros mt Hin. apply in_rev in Hin. rewrite <- E in Hin.
  now apply (finditer_starts content).
Qed.

Lemma multi_fix_file_length (content : str) :
  let o := fix_class_methods.fix_file content in
  length content <= length (file_after content o) /\
  (In FixedMethod (printed o) -> length content < length (file_after content o)) /\
  (~ In FixedMethod (printed o) -> file_after content o = content).
Proof.
  unfold fix_class_methods.fix_file.
  destruct (Re.finditer fix_class_methods.pattern content) as [|m ms] eqn:E.
  - cbn. repeat split; auto. intros [H|[H|[]]]; discriminate.
  - pose proof (process_matches_length (rev (m :: ms)) content) as H.
    destruct (fix_class_methods.process_matches content (rev (m :: ms)))
      as [w msgs].
    unfold file_after. cbn [written printed fst snd] in *.
    destruct H as (H1 & H2 & H3).
    + intros mt Hin. apply in_rev in Hin. rewrite <- E in Hin.
      now apply (finditer_starts content).
    + repeat split; auto.
      * intros [Heq|Hin]; [discriminate|auto].
      * intros Hn. apply H3. intros Hin. apply Hn. now right.
Qed.

Lemma multi_outcome (content : str) :
  let o := fix_class_methods.fix_file content in
  (Re.search fix_class_methods.pattern content = None /\
   written o = None /\ returned o = false) \/
  (Re.search fix_class_methods.pattern content <> None /\
   written o = Some (file_after content o) /\ returned o = true).
Proof.
  unfold fix_class_methods.fix_file.
  destruct (Re.finditer fix_class_methods.pattern content) as [|m ms] eqn:E.
  - left. apply finditer_nil_iff in E. now repeat split.
  - right.
    destruct (fix_class_methods.process_matches content (rev (m :: ms)))
      as [w msgs].
    repeat split. intros H. apply finditer_nil_iff in H. congruence.
Qed.


Lemma detected_agree (fs fs0 : files) (paths : list str) :
  (forall q, In q paths -> fs q = fs0 q) ->
  filter (detected fs) paths = filter (detected fs0) paths.
Proof.
  intros H. apply filter_ext_in. intros q Hq.
  unfold detected, read_text. now rewrite (H q Hq).
Qed.






(** The paths collected from the walk: a directory of the walk joined with
    one of its file names that ends in [.js]. *)
Lemma js_files_spec (os_walk : str -> list (str * list str * list str))
    (p : str) :
  In p (fix_all_class_methods_py.js_files os_walk) <->
  exists root dirs files file,
    In (root, dirs, files)
       (os_walk fix_all_class_methods_py.consciousness_dir) /\
    In file files /\
    endswith (Py.lit ".js") file = true /\
    p = path_join root file.
Proof.
  unfold fix_all_class_methods_py.js_files. rewrite in_flat_map. split.
  - intros ([[root dirs] files] & Hin & Hp).
    apply in_map_iff in Hp. destruct Hp as (file & <- & Hf).
    apply filter_In in Hf. destruct Hf as [Hf He].
    now exists root, dirs, files, file.
  - intros (root & dirs & files & file & Hin & Hf & He & ->).
    exists (root, dirs, files). split; [exact Hin|].
    apply in_map. apply filter_In. now split.
Qed.

Lemma js_files_end (os_walk : str -> list (str * list str * list str))
    (p : str) :
  In p (fix_all_class_methods_py.js_files os_walk) ->
  endswith (Py.lit ".js") p = true.
Proof.
  intros H. apply js_files_spec in H.
  destruct H as (root & dirs & files & file & _ & _ & He & ->).
  now apply endswith_path_join.
Qed.


End MainFacts.

(** * Further properties of the two scripts *)

Import CountFacts MultiFacts SingleFacts MainFacts.

(** X1.  Multi-method variant: whatever the text, every character other
    than the space and the line break occurs in the text written back as
    often as in the text read.  The script only moves lines and adds
    spaces and line breaks. *)
Theorem X1_multi_keeps_every_other_character (content : str) (c : ascii) :
  c <> " "%char -> c <> nl ->
  Py.count c (file_after content (fix_class_methods.fix_file content))
  = Py.count c content.
Proof. apply multi_fix_file_count. Qed.

Lemma X1_multi_keeps_every_other_character_witness :
  Py.count "}" (file_after scenario_D (fix_class_methods.fix_file scenario_D))
  = Py.count "}" scenario_D.
Proof.
  apply (X1_multi_keeps_every_other_character scenario_D "}"); discriminate.
Defined.

(** X2.  Multi-method variant: the text never gets shorter, and it is
    changed exactly when "Fixed method" is printed for one of the matches;
    the value returned does not tell (it is [True] whenever the detector
    matches). *)
Theorem X2_multi_changes_exactly_when_fixed_method (content : str) :
  let o := fix_class_methods.fix_file content in
  length content <= length (file_after content o) /\
  (In FixedMethod (printed o) <-> file_after content o <> content) /\
  (returned o = true <-> Re.search fix_class_methods.pattern content <> None).
Proof.
  cbv zeta.
  destruct (multi_fix_file_length content) as (L & Lt & Same).
  split; [exact L|]. split.
  - split.
    + intros Hin Heq. apply Lt in Hin. rewrite Heq in Hin. lia.
    + intros Hne.
      assert (Hdec : forall a b : message, {a = b} + {a <> b})
        by decide equality.
      destruct (in_dec Hdec FixedMethod
                  (printed (fix_class_methods.fix_file content)))
        as [Hin|Hnin]; [exact Hin|].
      exfalso. apply Hne. now apply Same.
  - destruct (multi_outcome content) as [(Hs & _ & Hr)|(Hs & _ & Hr)];
      cbv zeta in *; rewrite Hr; split; congruence.
Qed.

(** X3.  Single-method variant: every text the script writes has fewer
    closing braces than the text read, and no more of any other character
    than the space and the line break.  The closing brace at the start of
    the match is always among the lines that are cut out and not put
    back. *)
Theorem X3_single_write_loses_a_closing_brace (content new_content : str) :
  written (fix_all_class_methods.fix_file content) = Some new_content ->
  Py.count "}" new_content < Py.count "}" content /\
  forall c, c <> " "%char -> c <> nl ->
            Py.count c new_content <= Py.count c content.
Proof.
  intros H. apply write_shape in H.
  destruct H as (A & B & pre & ml & S & D & -> & -> & Hb & _).
  assert (Hcount : forall c, c <> " "%char -> c <> nl ->
            Py.count c (A ++ B ++ Py.join_nl pre ++ nl :: Py.join_nl ml
                        ++ S ++ D)
            = Py.count c (A ++ [nl] ++ Py.join_nl (map indent_line ml) ++ [nl]
                          ++ B ++ D)
              + Py.count c (Py.join_nl pre) + Py.count c S).
  { intros c Hs Hn.
    change (nl :: Py.join_nl ml ++ S ++ D)
      with ([nl] ++ Py.join_nl ml ++ S ++ D).
    rewrite !PyFacts.count_app, count_join_indent by assumption.
    rewrite (count_cons_other c nl []) by assumption.
    change (Py.count c []) with 0. lia. }
  split.
  - rewrite (Hcount "}"%char) by discriminate. lia.
  - intros c Hs Hn. rewrite (Hcount c) by assumption. lia.
Qed.

Lemma X3_single_write_loses_a_closing_brace_witness :
  Py.count "}" (file_after scenario_A (fix_all_class_methods.fix_file scenario_A))
  < Py.count "}" scenario_A.
Proof.
  apply (X3_single_write_loses_a_closing_brace scenario_A). reflexivity.
Defined.

(** X4.  Single-method variant: "could not find class end" is never
    printed.  The pattern of the second search is the start of the
    detector's pattern, so the second search succeeds whenever the first
    one did. *)
Theorem X4_single_class_end_always_found (content : str) :
  ~ In CouldNotFindClassEnd
      (printed (fix_all_class_methods.fix_file content)) /\
  forall mt,
    Re.search fix_all_class_methods.pattern content = Some mt ->
    exists cm,
      Re.search fix_all_class_methods.class_end_pattern content = Some cm /\
      m_start cm <= m_start mt.
Proof.
  split.
  - unfold fix_all_class_methods.fix_file.
    destruct (Re.search fix_all_class_methods.pattern content) as [mt|] eqn:Hs.
    + destruct (PatternFacts.class_end_found content mt Hs) as (cm & -> & _).
      destruct (fix_all_class_methods.find_method_end _ 0 0 =? 0);
        intros [H|[H|[H|[]]]]; discriminate.
    + intros [H|[H|[]]]; discriminate.
  - intros mt. apply PatternFacts.class_end_found.
Qed.

Lemma X4_single_class_end_always_found_witness :
  exists cm,
    Re.search fix_all_class_methods.class_end_pattern scenario_A = Some cm /\
    m_start cm <= 22.
Proof.
  destruct (X4_single_class_end_always_found scenario_A) as [_ H].
  apply (H (MatchObj 22 71 [(1, (22, 22))])). reflexivity.
Defined.



(** X6.  [main] of the single-method script: every path it hands to
    [fix_file] ends in [.js] and is a directory of the walk joined with one
    of the file names listed for that directory. *)
Theorem X6_single_main_checks_js_files_only
    (os_walk : str -> list (str * list str * list str)) (p : str) :
  In p (fix_all_class_methods_py.js_files os_walk) ->
  endswith (Py.lit ".js") p = true /\
  exists root dirs files file,
    In (root, dirs, files)
       (os_walk fix_all_class_methods_py.consciousness_dir) /\
    In file files /\
    p = path_join root file.
Proof.
  intros H. split; [now apply (js_files_end os_walk)|].
  apply js_files_spec in H.
  destruct H as (root & dirs & files & file & H1 & H2 & _ & H4).
  now exists root, dirs, files, file.
Qed.

Lemma X6_single_main_checks_js_files_only_witness :
  endswith (Py.lit ".js")
    (Py.lit "FlappyJournal/server/consciousness/modules/Foo.js") = true /\
  exists root dirs files file,
    In (root, dirs, files)
       (small_walk fix_all_class_methods_py.consciousness_dir) /\
    In file files /\
    Py.lit "FlappyJournal/server/consciousness/modules/Foo.js"
    = path_join root file.
Proof.
  apply (X6_single_main_checks_js_files_only small_walk).
  right. left. reflexivity.
Defined.


(** X8.  [main] of the single-method script prints the number of collected
    paths first and, last, a count that is the number of "Fixed" lines
    printed in between, at most the number of collected paths. *)
Theorem X8_single_main_counts_fixed_lines
    (os_walk : str -> list (str * list str * list str)) (fs : files) :
  exists out,
    snd (fix_all_class_methods_py.main os_walk fs)
    = FoundFiles (length (fix_all_class_methods_py.js_files os_walk))
      :: out ++ [FixedFiles (fixed_lines out)] /\
    fixed_lines out <= length (fix_all_class_methods_py.js_files os_walk).
Proof.
  unfold fix_all_class_methods_py.main.
  pose proof (single_fix_each (fix_all_class_methods_py.js_files os_walk) fs 0)
    as H.
  destruct (fix_all_class_methods_py.fix_each fs _ 0) as [[fs' out] n].
  destruct H as (Hn & Hle & _). simpl in Hn, Hle. subst n.
  exists out. split; [reflexivity|exact Hle].
Qed.






